(** * law-dictionary-ocr: annotation normalisation, text reconstruction
      and confidence audit

    A shallow embedding of the three TypeScript utilities that read a
    Google Vision annotation:

    - [extract-text.ts] in the revision that walks the hierarchy first,
      unwraps [responses[0]] and closes every block with a newline
                                                 -> [Module HierarchyFirst];
    - [extract-text.ts] in the revision that prefers the flat [text]
                                                 -> [Module TextFirst];
    - the confidence audit [validate.ts]         -> [Module Validate].

    JavaScript strings are sequences of UTF-16 code units, numbers are
    IEEE 754 binary64 values (Rocq's primitive floats), [undefined] is
    [None], and a thrown [TypeError] is an explicit outcome. *)

From Stdlib Require Import String Ascii.
From Stdlib Require Import List NArith ZArith Bool Lia.
From Stdlib Require Import Floats.PrimFloat Floats.SpecFloat Floats.FloatOps.
From Stdlib Require Import Numbers.Cyclic.Int63.Uint63.
From Stdlib Require Import DecimalString.
From Stdlib Require Strings.Byte.
Import ListNotations.

Set Implicit Arguments.
Set Warnings "-register-all,-inexact-float".

(* ===================================================================== *)
(** * JavaScript strings                                                  *)
(* ===================================================================== *)

Module JsString.

(** A string is its sequence of UTF-16 code units. *)
Definition jsstring := list N.

(** An ASCII literal of the source, as code units. *)
Definition lit (s : string) : jsstring :=
  map N_of_ascii (list_ascii_of_string s).

Definition LF : jsstring := [10%N].      (* '\n' *)
Definition SP : jsstring := [32%N].      (* ' '  *)

(** [a === b] on strings. *)
Fixpoint streq (a b : jsstring) : bool :=
  match a, b with
  | [], [] => true
  | x :: a', y :: b' => N.eqb x y && streq a' b'
  | _, _ => false
  end.

(** [parts.join('')]. *)
Definition join (parts : list jsstring) : jsstring := List.concat parts.

(** [s.endsWith('\n')]. *)
Definition endsWithLF (s : jsstring) : bool :=
  match rev s with
  | c :: _ => N.eqb c 10
  | [] => false
  end.

(** The code units that [String.prototype.trim] strips: ECMAScript's
    WhiteSpace (TAB, VT, FF, SP, NBSP, ZWNBSP and the Unicode
    Space_Separator category) and LineTerminator (LF, CR, LS, PS). *)
Definition isTrimmable (c : N) : bool :=
  (N.eqb c 9 || N.eqb c 10 || N.eqb c 11 || N.eqb c 12 || N.eqb c 13
   || N.eqb c 32 || N.eqb c 160 || N.eqb c 5760
   || (N.leb 8192 c && N.leb c 8202)
   || N.eqb c 8232 || N.eqb c 8233 || N.eqb c 8239 || N.eqb c 8287
   || N.eqb c 12288 || N.eqb c 65279)%bool.

Fixpoint trimStart (s : jsstring) : jsstring :=
  match s with
  | c :: s' => if isTrimmable c then trimStart s' else s
  | [] => []
  end.

Definition trimEnd (s : jsstring) : jsstring := rev (trimStart (rev s)).

(** [s.trim()]. *)
Definition trim (s : jsstring) : jsstring := trimEnd (trimStart s).

(** [s.replace(/\n+$/, '')]: the maximal run of line feeds at the very
    end of the string is removed. *)
Fixpoint dropLeadingLF (s : jsstring) : jsstring :=
  match s with
  | c :: s' => if N.eqb c 10 then dropLeadingLF s' else s
  | [] => []
  end.

Definition stripTrailingLF (s : jsstring) : jsstring :=
  rev (dropLeadingLF (rev s)).

End JsString.
Import JsString.

(* ===================================================================== *)
(** * Outcomes of a JavaScript computation                                *)
(* ===================================================================== *)

Module Js.

(** A computation returns a value or throws a [TypeError] (property
    access or iteration on [undefined]/[null]). *)
Inductive result (A : Type) : Type :=
| Ok (a : A)
| TypeError.
Arguments Ok {A} a.
Arguments TypeError {A}.

Definition bind {A B} (c : result A) (k : A -> result B) : result B :=
  match c with
  | Ok a => k a
  | TypeError => TypeError
  end.

(** [for (const x of xs) body] and [xs.forEach(body)], threading the
    variables the body mutates.  Iterating [undefined] throws. *)
Fixpoint iterate {A S} (body : A -> S -> result S) (xs : list A) (s : S)
  : result S :=
  match xs with
  | [] => Ok s
  | x :: xs' => bind (body x s) (iterate body xs')
  end.

Definition forOf {A S} (xs : option (list A)) (body : A -> S -> result S)
           (s : S) : result S :=
  match xs with
  | Some l => iterate body l s
  | None => TypeError
  end.

(** [xs ?? []]. *)
Definition orEmpty {A} (xs : option (list A)) : option (list A) :=
  match xs with
  | Some l => Some l
  | None => Some []
  end.

End Js.
Import Js.

Declare Scope js_scope.
Delimit Scope js_scope with js.
Notation "x <- c ;; k" := (bind c (fun x => k))
  (at level 61, c at next level, right associativity) : js_scope.
Open Scope js_scope.

(* ===================================================================== *)
(** * Parsed JSON values                                                  *)
(* ===================================================================== *)

Module Json.

(** What [JSON.parse] returns.  An object is its list of own
    properties; [JSON.parse] leaves one binding per key. *)
Inductive json : Type :=
| JNull
| JBool (b : bool)
| JNum (x : float)
| JStr (s : jsstring)
| JArr (items : list json)
| JObj (fields : list (jsstring * json)).

(** A JavaScript value that may be [undefined]. *)
Definition value := option json.

Fixpoint lookup (k : jsstring) (fields : list (jsstring * json)) : value :=
  match fields with
  | [] => None
  | (k', v) :: rest => if streq k k' then Some v else lookup k rest
  end.

(** [v.k] for the keys the sources read from an untyped value
    ([responses], [fullTextAnnotation]): own property of an object,
    [undefined] on arrays and primitives, a [TypeError] on [null]. *)
Definition getField (k : jsstring) (v : json) : result value :=
  match v with
  | JNull => TypeError
  | JObj fields => Ok (lookup k fields)
  | _ => Ok None
  end.

(** ToBoolean. *)
Definition truthy (v : json) : bool :=
  match v with
  | JNull => false
  | JBool b => b
  | JNum x => negb (PrimFloat.eqb x 0 || PrimFloat.is_nan x)
  | JStr s => negb (streq s [])
  | JArr _ => true
  | JObj _ => true
  end.

(** [typeof v === 'object']. *)
Definition typeofObject (v : json) : bool :=
  match v with
  | JNull | JArr _ | JObj _ => true
  | _ => false
  end.

(** [a ?? b] with a possibly undefined right operand. *)
Definition coalesceV (a b : value) : value :=
  match a with
  | None | Some JNull => b
  | Some _ => a
  end.

(** [a ?? b] with a defined right operand. *)
Definition coalesce (a : value) (b : json) : json :=
  match a with
  | None | Some JNull => b
  | Some v => v
  end.

End Json.
Import Json.

(* ===================================================================== *)
(** * The annotation tree                                                 *)
(* ===================================================================== *)

(** The [VisionAnnotation] interface of [extract-text.ts], every field
    optional as declared there, together with the [confidence] that
    [validate.ts] reads from a word.  [None] is an absent property.  It
    also stands for a [null] one: every read in the sources ([!x],
    [x ?? d], [x?.y], [x != null], [x || 0], [x.forEach]) treats [null]
    as it treats [undefined]. *)
Module Annotation.

Record DetectedBreak := { break_type : option jsstring }.
Record Property := { detectedBreak : option DetectedBreak }.
Record Symbol := { symbol_text : option jsstring;
                   property : option Property }.
Record Word := { symbols : option (list Symbol);
                 confidence : option float }.
Record Paragraph := { words : option (list Word) }.
Record Block := { paragraphs : option (list Paragraph) }.
Record Page := { blocks : option (list Block) }.
Record VisionAnnotation := { pages : option (list Page);
                             text : option jsstring }.

(** The JSON object that carries an annotation: one key per present
    property. *)
Definition field {A} (k : string) (enc : A -> json) (v : option A)
  : list (jsstring * json) :=
  match v with
  | Some a => [(lit k, enc a)]
  | None => []
  end.

Definition array {A} (enc : A -> json) (l : list A) : json :=
  JArr (map enc l).

Definition breakToJson (b : DetectedBreak) : json :=
  JObj (field "type" JStr (break_type b)).
Definition propertyToJson (p : Property) : json :=
  JObj (field "detectedBreak" breakToJson (detectedBreak p)).
Definition symbolToJson (s : Symbol) : json :=
  JObj (field "text" JStr (symbol_text s)
        ++ field "property" propertyToJson (property s)).
Definition wordToJson (w : Word) : json :=
  JObj (field "symbols" (array symbolToJson) (symbols w)
        ++ field "confidence" JNum (confidence w)).
Definition paragraphToJson (p : Paragraph) : json :=
  JObj (field "words" (array wordToJson) (words p)).
Definition blockToJson (b : Block) : json :=
  JObj (field "paragraphs" (array paragraphToJson) (paragraphs b)).
Definition pageToJson (p : Page) : json :=
  JObj (field "blocks" (array blockToJson) (blocks p)).
Definition toJson (d : VisionAnnotation) : json :=
  JObj (field "pages" (array pageToJson) (pages d)
        ++ field "text" JStr (text d)).

(** The wrappers of the raw input shapes. *)
Definition underFullTextAnnotation (c : json) : json :=
  JObj [(lit "fullTextAnnotation", c)].
Definition underResponses (c : json) : json :=
  JObj [(lit "responses", JArr [c])].

End Annotation.
Import Annotation.

(* ===================================================================== *)
(** * Shared pieces of the two text extractors                            *)
(* ===================================================================== *)

Module Walk.

(** [symbol.property?.detectedBreak?.type]. *)
Definition breakTypeOf (symbol : Symbol) : option jsstring :=
  match property symbol with
  | None => None
  | Some p =>
      match detectedBreak p with
      | None => None
      | Some b => break_type b
      end
  end.

Definition isOneOf (breakType : option jsstring) (a b : string) : bool :=
  match breakType with
  | Some t => streq t (lit a) || streq t (lit b)
  | None => false
  end.

(** The body of the innermost loop, identical in both revisions:
<<
    if (symbol.text != null) parts.push(symbol.text);
    const breakType = symbol.property?.detectedBreak?.type;
    if (breakType === 'LINE_BREAK' || breakType === 'EOL_SURE_SPACE')
      parts.push('\n');
    else if (breakType === 'SPACE' || breakType === 'SURE_SPACE')
      parts.push(' ');
>>  *)
Definition pushText (symbol : Symbol) (parts : list jsstring)
  : list jsstring :=
  match symbol_text symbol with
  | Some t => parts ++ [t]
  | None => parts
  end.

Definition pushBreak (breakType : option jsstring) (parts : list jsstring)
  : list jsstring :=
  if isOneOf breakType "LINE_BREAK" "EOL_SURE_SPACE" then parts ++ [LF]
  else if isOneOf breakType "SPACE" "SURE_SPACE" then parts ++ [SP]
  else parts.

Definition symbolBody (symbol : Symbol) (parts : list jsstring)
  : result (list jsstring) :=
  let parts := pushText symbol parts in
  let breakType := breakTypeOf symbol in
  Ok (pushBreak breakType parts).

(** [for (const word of paragraph.words ?? [])
       for (const symbol of word.symbols ?? []) ...]. *)
Definition wordBody (word : Word) (parts : list jsstring)
  : result (list jsstring) :=
  forOf (orEmpty (symbols word)) symbolBody parts.

Definition paragraphBody (paragraph : Paragraph) (parts : list jsstring)
  : result (list jsstring) :=
  forOf (orEmpty (words paragraph)) wordBody parts.

(** [!data.pages || data.pages.length === 0]. *)
Definition noPages (data : VisionAnnotation) : bool :=
  match pages data with
  | None => true
  | Some l => Nat.eqb (List.length l) 0
  end.

End Walk.
Import Walk.

(* ===================================================================== *)
(** * The hierarchy-first extractor                                       *)
(* ===================================================================== *)

Module HierarchyFirst.

(** [loadVisionFile], after [JSON.parse], statement by statement:
<<
    const root = Array.isArray(json.responses) ? json.responses[0] : json;
>>  *)
Definition rootOf (json : json) : result value :=
  responses <- getField (lit "responses") json ;;
  Ok (match responses with
      | Some (JArr items) => nth_error items 0
      | _ => Some json
      end).

(**
<<
    const data = (root && typeof root === 'object'
                  && root.fullTextAnnotation) ?? root ?? json;
>>  *)
Definition dataOf (root : value) (json : json) : result Json.json :=
  annotation <-
    match root with
    | None => Ok None
    | Some r =>
        if truthy r then
          if typeofObject r then getField (lit "fullTextAnnotation") r
          else Ok (Some (JBool false))
        else Ok (Some r)
    end ;;
  Ok (coalesce (coalesceV annotation root) json).

Definition loadVisionFile (json : json) : result Json.json :=
  root <- rootOf json ;;
  dataOf root json.

(** After a block:
<<
    if (!parts[parts.length - 1]?.endsWith('\n')) parts.push('\n');
>>  *)
Definition lastEndsWithLF (parts : list jsstring) : bool :=
  match rev parts with
  | p :: _ => endsWithLF p
  | [] => false            (* undefined?.endsWith(...) is undefined *)
  end.

Definition separate (parts : list jsstring) : list jsstring :=
  if negb (lastEndsWithLF parts) then parts ++ [LF] else parts.

Definition blockBody (block : Block) (parts : list jsstring)
  : result (list jsstring) :=
  parts <- forOf (orEmpty (paragraphs block)) paragraphBody parts ;;
  Ok (separate parts).

Definition pageBody (page : Page) (parts : list jsstring)
  : result (list jsstring) :=
  let blocks := orEmpty (blocks page) in
  forOf blocks blockBody parts.

(** The loop nest of [extractText], from [const parts = []]. *)
Definition emit (data : VisionAnnotation) : result (list jsstring) :=
  forOf (pages data) pageBody [].

(** [extractText]: the flat [text] only when there is no hierarchy. *)
Definition extractText (data : VisionAnnotation) : result jsstring :=
  if noPages data then
    Ok (match text data with Some t => t | None => [] end)
  else
    parts <- emit data ;;
    Ok (trim (join parts)).

End HierarchyFirst.

(* ===================================================================== *)
(** * The text-first extractor                                            *)
(* ===================================================================== *)

Module TextFirst.

(** [loadVisionFile], after [JSON.parse]:
<<
    const data = json.fullTextAnnotation ?? json;
>>  *)
Definition loadVisionFile (json : json) : result Json.json :=
  annotation <- getField (lit "fullTextAnnotation") json ;;
  Ok (coalesce annotation json).

Definition blockBody (block : Block) (parts : list jsstring)
  : result (list jsstring) :=
  let paragraphs := orEmpty (paragraphs block) in
  forOf paragraphs paragraphBody parts.

Definition pageBody (page : Page) (parts : list jsstring)
  : result (list jsstring) :=
  let blocks := orEmpty (blocks page) in
  forOf blocks blockBody parts.

(** The loop nest of [extractText], from [const parts = []]. *)
Definition emit (data : VisionAnnotation) : result (list jsstring) :=
  forOf (pages data) pageBody [].

(** [extractText]: the flat [text] whenever it is a non-empty string. *)
Definition extractText (data : VisionAnnotation) : result jsstring :=
  match text data with
  | Some (c :: t) => Ok (c :: t)
  | _ =>
      if noPages data then Ok []
      else
        parts <- emit data ;;
        Ok (stripTrailingLF (join parts))
  end.

End TextFirst.

(* ===================================================================== *)
(** * JavaScript numbers and their printing                               *)
(* ===================================================================== *)

Module JsNumber.

(** ToBoolean on a number: [+0], [-0] and [NaN] are falsy. *)
Definition truthyNumber (x : float) : bool :=
  negb (PrimFloat.eqb x 0 || PrimFloat.is_nan x).

(** A counter ([let n = 0; ... n++]) holds a natural number; as the
    operand of a division it is that number as a binary64 value (exact
    below 2^53, which no in-memory document reaches). *)
Definition ofNat (n : nat) : float :=
  PrimFloat.of_uint63 (Uint63.of_Z (Z.of_nat n)).

(** Decimal digits of a natural number: what a template literal prints
    for a counter or an array length. *)
Definition digits (n : N) : jsstring :=
  lit (NilEmpty.string_of_uint (N.to_uint n)).

Definition sign (negative : bool) : jsstring :=
  if negative then lit "-" else [].

(** Steps 11.b-11.c of [Number.prototype.toFixed]: the digits of [n],
    left-padded with zeros to [f + 1] digits, with a point before the
    last [f]. *)
Definition fixedPoint (n : N) (f : nat) : jsstring :=
  let m := digits n in
  let k := List.length m in
  let m := if Nat.leb k f then repeat 48%N (f + 1 - k) ++ m else m in
  let k := List.length m in
  if Nat.eqb f 0 then m
  else firstn (k - f) m ++ lit "." ++ skipn (k - f) m.

(** Step 11.a: the integer [n] for which [n / 10^f - m * 2^e] is closest
    to zero, the larger one on a tie. *)
Definition scaled (m : positive) (e : Z) (f : nat) : N :=
  let t := (Z.pos m * 10 ^ Z.of_nat f)%Z in
  Z.to_N (if (0 <=? e)%Z then t * 2 ^ e
          else (2 * t + 2 ^ (- e)) / 2 ^ (1 - e))%Z.

(** [Number::toString] of a finite value at or above 10^21, which is an
    integer [v]: scientific notation with the fewest digits that read
    back as the same binary64 value, the closest such digits first. *)
Definition readsBackAs (x : float) (v : Z) : bool :=
  PrimFloat.eqb (SF2Prim (binary_normalize prec emax v 0 false)) x.

Fixpoint shortest (x : float) (v : Z) (d k fuel : nat) : Z :=
  match fuel with
  | O => v
  | S fuel' =>
      let p := (10 ^ Z.of_nat (d - k))%Z in
      let lo := (v / p * p)%Z in
      let hi := (lo + p)%Z in
      match readsBackAs x lo, readsBackAs x hi with
      | true, true => if (v - lo <=? hi - v)%Z then lo else hi
      | true, false => lo
      | false, true => hi
      | false, false => shortest x v d (S k) fuel'
      end
  end.

Fixpoint dropZeros (s : jsstring) : jsstring :=
  match s with
  | c :: s' => if N.eqb c 48 then dropZeros s' else s
  | [] => []
  end.

Definition exponential (v : Z) : jsstring :=
  let ds := digits (Z.to_N v) in
  let e := digits (N.of_nat (List.length ds - 1)) in
  match rev (dropZeros (rev ds)) with
  | [] => ds
  | [d] => d :: lit "e+" ++ e
  | d :: rest => d :: lit "." ++ rest ++ lit "e+" ++ e
  end.

Definition toStringLarge (m : positive) (e : Z) : jsstring :=
  let v := (Z.pos m * 2 ^ e)%Z in
  let d := List.length (digits (Z.to_N v)) in
  exponential (shortest (SF2Prim (S754_finite false m e)) v d 1 17).

(** [x.toFixed(f)] for [0 <= f <= 100]. *)
Definition toFixed (x : float) (f : nat) : jsstring :=
  match Prim2SF x with
  | S754_nan => lit "NaN"
  | S754_infinity s => sign s ++ lit "Infinity"
  | S754_zero _ => fixedPoint 0 f
  | S754_finite s m e =>
      sign s ++
      (if ((0 <=? e) && (10 ^ 21 <=? Z.pos m * 2 ^ e))%Z
       then toStringLarge m e
       else fixedPoint (scaled m e f) f)
  end.

End JsNumber.
Import JsNumber.

(* ===================================================================== *)
(** * The confidence audit                                                *)
(* ===================================================================== *)

Module Validate.

(** The annotation a file is audited on:
<<
      const data = json.fullTextAnnotation ? json.fullTextAnnotation : json;
>>  *)
Definition selectAnnotation (json : json) : result Json.json :=
  annotation <- getField (lit "fullTextAnnotation") json ;;
  Ok (match annotation with
      | Some a => if truthy a then a else json
      | None => json
      end).

(** The variables the traversal updates. *)
Record Tally := { wordCount : nat;
                  cumulativeConfidence : float;
                  flaggedWordCount : nat }.

(** [const score = word.confidence || 0]. *)
Definition scoreOf (word : Word) : float :=
  match confidence word with
  | Some c => if truthyNumber c then c else 0%float
  | None => 0%float
  end.

(** The innermost callback:
<<
      wordCount++;
      const score = word.confidence || 0;
      cumulativeConfidence += score;
      if (score < 0.8) flaggedWordCount++;
>>  *)
Definition wordCallback (word : Word) (t : Tally) : result Tally :=
  let score := scoreOf word in
  Ok {| wordCount := S (wordCount t);
        cumulativeConfidence := (cumulativeConfidence t + score)%float;
        flaggedWordCount := if (score <? 0.8)%float
                            then S (flaggedWordCount t)
                            else flaggedWordCount t |}.

(** [para.words.forEach], [block.paragraphs.forEach],
    [page.blocks.forEach]: none of the arrays is defaulted. *)
Definition paragraphCallback (para : Paragraph) (t : Tally) : result Tally :=
  forOf (words para) wordCallback t.

Definition blockCallback (block : Block) (t : Tally) : result Tally :=
  forOf (paragraphs block) paragraphCallback t.

Definition pageCallback (page : Page) (t : Tally) : result Tally :=
  forOf (blocks page) blockCallback t.

Definition start : Tally :=
  {| wordCount := 0; cumulativeConfidence := 0%float; flaggedWordCount := 0 |}.

(** [data.pages.forEach(...)] from the three variables at zero. *)
Definition traverse (data : VisionAnnotation) : result Tally :=
  forOf (pages data) pageCallback start.

(** [cumulativeConfidence / wordCount]. *)
Definition meanConfidence (t : Tally) : float :=
  (cumulativeConfidence t / ofNat (wordCount t))%float.

(** [data.pages[0].blocks.length]. *)
Definition firstPageBlockCount (data : VisionAnnotation) : result nat :=
  match pages data with
  | Some (page :: _) =>
      match blocks page with
      | Some bs => Ok (List.length bs)
      | None => TypeError
      end
  | _ => TypeError
  end.

(** [data.text.substring(0, 80).replace(/\n/g, ' ')]. *)
Definition sampleOf (t : jsstring) : jsstring :=
  map (fun c => if N.eqb c 10 then 32%N else c) (firstn 80 t).

(** The [console.log] calls that close [auditJsonFile], as the lines they
    print. *)
Definition printAudit (fileName averageConfidence : jsstring)
           (flaggedWordCount blockCount : nat) (text : option jsstring)
  : list jsstring :=
  [lit "FILE AUDIT: " ++ fileName;
   lit "- Avg Confidence: " ++ averageConfidence;
   lit "- Flagged Words: " ++ digits (N.of_nat flaggedWordCount)
     ++ lit " (Under 0.80)";
   lit "- Layout Blocks: " ++ digits (N.of_nat blockCount)]
  ++ match text with
     | Some (c :: t) =>
         [lit "- Content Sample: " ++ sampleOf (c :: t) ++ lit "..."]
     | _ => []
     end
  ++ [lit "---"].

(** [auditJsonFile] on the selected annotation.  The function returns
    nothing; what it does is the list of lines it passes to
    [console.log], or the [TypeError] that escapes it before any line is
    printed. *)
Definition auditJsonFile (fileName : jsstring) (data : VisionAnnotation)
  : result (list jsstring) :=
  if noPages data then
    Ok [lit "[!] CRITICAL: " ++ fileName
        ++ lit " contains no structural 'pages' data."]
  else
    t <- traverse data ;;
    let averageConfidence := toFixed (meanConfidence t) 4 in
    blockCount <- firstPageBlockCount data ;;
    Ok (printAudit fileName averageConfidence (flaggedWordCount t)
          blockCount (text data)).

End Validate.


(* ===================================================================== *)
(** * Reference functions and sample documents                            *)
(* ===================================================================== *)

Module Reference.

(** An absent array read as the empty sequence. *)
Definition elements {A} (xs : option (list A)) : list A :=
  match xs with
  | Some l => l
  | None => []
  end.

(** The words of a list of pages in document order, every word once. *)
Definition wordsOfBlock (b : Block) : list Word :=
  flat_map (fun para => elements (words para)) (elements (paragraphs b)).

Definition wordsOfPage (p : Page) : list Word :=
  flat_map wordsOfBlock (elements (blocks p)).

Definition allWords (ps : list Page) : list Word :=
  flat_map wordsOfPage ps.

(** Every array the audit iterates is present. *)
Definition completeParagraph (para : Paragraph) : bool :=
  match words para with Some _ => true | None => false end.

Definition completeBlock (b : Block) : bool :=
  match paragraphs b with
  | Some l => forallb completeParagraph l
  | None => false
  end.

Definition completePage (p : Page) : bool :=
  match blocks p with
  | Some l => forallb completeBlock l
  | None => false
  end.

Definition complete (data : VisionAnnotation) : bool :=
  forallb completePage (elements (pages data)).

(** The same annotation with every absent [blocks], [paragraphs],
    [words] and [symbols] array replaced by an empty one. *)
Definition fillWord (w : Word) : Word :=
  {| symbols := Some (elements (symbols w)); confidence := confidence w |}.

Definition fillParagraph (p : Paragraph) : Paragraph :=
  {| words := Some (map fillWord (elements (words p))) |}.

Definition fillBlock (b : Block) : Block :=
  {| paragraphs := Some (map fillParagraph (elements (paragraphs b))) |}.

Definition fillPage (p : Page) : Page :=
  {| blocks := Some (map fillBlock (elements (blocks p))) |}.

Definition fill (data : VisionAnnotation) : VisionAnnotation :=
  {| pages := option_map (map fillPage) (pages data); text := text data |}.

(** The pieces a symbol, a word, a paragraph contribute. *)
Definition textPieces (s : Symbol) : list jsstring :=
  match symbol_text s with
  | Some t => [t]
  | None => []
  end.

Definition symbolPieces (s : Symbol) : list jsstring :=
  pushBreak (breakTypeOf s) (textPieces s).

Definition wordPieces (w : Word) : list jsstring :=
  flat_map symbolPieces (elements (symbols w)).

Definition paragraphPieces (p : Paragraph) : list jsstring :=
  flat_map wordPieces (elements (words p)).

Definition blockPieces (b : Block) : list jsstring :=
  flat_map paragraphPieces (elements (paragraphs b)).

(** The blocks of a list of pages in document order, and the pieces
    left after walking them from [parts]: each block appends its pieces
    and is then closed by [separate]. *)
Definition allBlocks (ps : list Page) : list Block :=
  flat_map (fun p => elements (blocks p)) ps.

Definition separated (bs : list Block) (parts : list jsstring)
  : list jsstring :=
  fold_left (fun s b => HierarchyFirst.separate (s ++ blockPieces b)) bs parts.

(** A string neither begins nor ends with a code unit that [trim]
    strips. *)
Definition startsClean (s : jsstring) : bool :=
  match s with
  | c :: _ => negb (isTrimmable c)
  | [] => true
  end.

Definition endsClean (s : jsstring) : bool := startsClean (rev s).

(** The whitespace the break metadata of a symbol stands for, as the
    specification words it. *)
Inductive whitespaceFor : option jsstring -> list jsstring -> Prop :=
| ws_newline : forall t,
    t = lit "LINE_BREAK" \/ t = lit "EOL_SURE_SPACE" ->
    whitespaceFor (Some t) [LF]
| ws_space : forall t,
    t = lit "SPACE" \/ t = lit "SURE_SPACE" ->
    whitespaceFor (Some t) [SP]
| ws_other : forall t,
    t <> lit "LINE_BREAK" -> t <> lit "EOL_SURE_SPACE" ->
    t <> lit "SPACE" -> t <> lit "SURE_SPACE" ->
    whitespaceFor (Some t) []
| ws_absent : whitespaceFor None [].

(** The tally after the words [ws], in closed form. *)
Definition sumScores (ws : list Word) : float :=
  fold_left (fun acc w => (acc + Validate.scoreOf w)%float) ws 0%float.

Definition flagged (ws : list Word) : list Word :=
  filter (fun w => (Validate.scoreOf w <? 0.8)%float) ws.

Definition tallyOf (ws : list Word) : Validate.Tally :=
  {| Validate.wordCount := List.length ws;
     Validate.cumulativeConfidence := sumScores ws;
     Validate.flaggedWordCount := List.length (flagged ws) |}.

(** One word, as [wordCallback] counts it. *)
Definition counted (w : Word) (t : Validate.Tally) : Validate.Tally :=
  {| Validate.wordCount := S (Validate.wordCount t);
     Validate.cumulativeConfidence :=
       (Validate.cumulativeConfidence t + Validate.scoreOf w)%float;
     Validate.flaggedWordCount :=
       if (Validate.scoreOf w <? 0.8)%float
       then S (Validate.flaggedWordCount t)
       else Validate.flaggedWordCount t |}.

Definition countedAll (ws : list Word) (t : Validate.Tally) : Validate.Tally :=
  fold_left (fun t w => counted w t) ws t.

(** What a word adds to the sum of the confidences: its confidence,
    and 0.0 when the confidence is absent.  A confidence that is zero
    or not a number adds 0.0 as well. *)
Definition contribution (w : Word) : float :=
  match confidence w with
  | Some c => if (PrimFloat.eqb c 0 || PrimFloat.is_nan c)%bool then 0%float
              else c
  | None => 0%float
  end.

(** The mean the audit divides out, when the traversal succeeds. *)
Definition measuredMean (data : VisionAnnotation) : result float :=
  t <- Validate.traverse data ;; Ok (Validate.meanConfidence t).

(** The pass mark of the specification's report:
    [passed = meanConfidence > 0.90]. *)
Definition specPassed (mean : float) : bool := (0.90 <? mean)%float.

End Reference.
Import Reference.

Module Samples.

Definition plain (t : string) : Symbol :=
  {| symbol_text := Some (lit t); property := None |}.

Definition broken (t : option jsstring) (breakType : string) : Symbol :=
  {| symbol_text := t;
     property := Some {| detectedBreak :=
                           Some {| break_type := Some (lit breakType) |} |} |}.

Definition wordOf (ss : list Symbol) : Word :=
  {| symbols := Some ss; confidence := None |}.

Definition scored (c : float) : Word :=
  {| symbols := Some [plain "w"]; confidence := Some c |}.

Definition blockOf (ws : list Word) : Block :=
  {| paragraphs := Some [ {| words := Some ws |} ] |}.

Definition document (bs : list Block) : VisionAnnotation :=
  {| pages := Some [ {| blocks := Some bs |} ]; text := None |}.

(** Two blocks, one word each, one symbol "X" each, no break. *)
Definition twoBlocksX : VisionAnnotation :=
  document [blockOf [wordOf [plain "X"]]; blockOf [wordOf [plain "X"]]].

(** c, a, t with SPACE after the t, then d, o, g. *)
Definition catDog : VisionAnnotation :=
  document [blockOf [wordOf [plain "c"; plain "a";
                              broken (Some (lit "t")) "SPACE"];
                     wordOf [plain "d"; plain "o"; plain "g"]]].

(** A block whose last symbol has the empty string as text, after a
    line break; then a block with "b". *)
Definition emptyTail : Block :=
  blockOf [wordOf [broken (Some (lit "a")) "LINE_BREAK";
                   {| symbol_text := Some []; property := None |}]].

Definition emptyTailThenB : VisionAnnotation :=
  document [emptyTail; blockOf [wordOf [plain "b"]]].

(** A first symbol without text but with a SPACE break, then "X". *)
Definition leadingSpace : VisionAnnotation :=
  document [blockOf [wordOf [broken None "SPACE"; plain "X"]]].

(** { "text": "A fortiori" } *)
Definition textOnly : VisionAnnotation :=
  {| pages := None; text := Some (lit "A fortiori") |}.

(** { "pages": [ { "blocks": [] } ] } *)
Definition onePageNoBlocks : VisionAnnotation := document [].

(** { "pages": [ {} ] } *)
Definition pageWithoutBlocks : VisionAnnotation :=
  {| pages := Some [ {| blocks := None |} ]; text := None |}.

(** One word of confidence [c] in one block. *)
Definition oneWord (c : float) : VisionAnnotation :=
  document [blockOf [scored c]].

(** Three words of confidence 1.0, 0.5 and 0.9. *)
Definition threeWords : VisionAnnotation :=
  document [blockOf [scored 1; scored 0.5; scored 0.9]].

(** Two pages with one and two blocks. *)
Definition twoPages : VisionAnnotation :=
  {| pages := Some [ {| blocks := Some [blockOf [scored 1]] |};
                     {| blocks := Some [blockOf [scored 0.5];
                                        blockOf [scored 0.9]] |} ];
     text := Some (lit "A fortiori") |}.

(** { "responses": [] } *)
Definition emptyResponses : json := JObj [(lit "responses", JArr [])].

End Samples.
Import Samples.

(* ===================================================================== *)
(** * Node's [path] and the case folding of file names                    *)
(* ===================================================================== *)

Module Path.

Definition isSlash (c : N) : bool := N.eqb c 47.
Definition isDot (c : N) : bool := N.eqb c 46.

Fixpoint takeWhile (f : N -> bool) (s : jsstring) : jsstring :=
  match s with
  | c :: s' => if f c then c :: takeWhile f s' else []
  | [] => []
  end.

Fixpoint dropWhile (f : N -> bool) (s : jsstring) : jsstring :=
  match s with
  | c :: s' => if f c then dropWhile f s' else s
  | [] => []
  end.

(** The last portion of a POSIX path, the one [path.extname] and
    [path.parse] look at: separators at the end are skipped, and the
    portion runs back to the separator before it. *)
Definition lastPortion (p : jsstring) : jsstring :=
  rev (takeWhile (fun c => negb (isSlash c)) (dropWhile isSlash (rev p))).

(** A portion split into [name] and [ext].  The extension starts at the
    last dot; there is none when the portion has no dot, when its only
    dot before the end part is its first character, or when the portion
    is "..". *)
Definition splitPortion (portion : jsstring) : jsstring * jsstring :=
  let r := rev portion in
  let after := takeWhile (fun c => negb (isDot c)) r in
  match dropWhile (fun c => negb (isDot c)) r with
  | [] => (portion, [])
  | [_] => (portion, [])
  | _ :: before =>
      if streq portion (lit "..") then (portion, [])
      else (rev before, 46%N :: rev after)
  end.

(** [path.extname(p)]. *)
Definition extname (p : jsstring) : jsstring :=
  snd (splitPortion (lastPortion p)).

(** [path.parse] scans an absolute path from its second character on
    and, when it meets no separator, keeps the start of the portion at
    index 0.  A portion that stands directly after the root is
    therefore never recognised as "..": it is split at its last dot like
    any other name. *)
Definition afterRoot (p : jsstring) : bool :=
  match p with
  | c :: rest =>
      (isSlash c
       && forallb (fun c => negb (isSlash c)) (dropWhile isSlash (rev rest)))%bool
  | [] => false
  end.

(** [path.parse(p).name]. *)
Definition parseName (p : jsstring) : jsstring :=
  let portion := lastPortion p in
  if (afterRoot p && streq portion (lit ".."))%bool then lit "."
  else fst (splitPortion portion).

(** [s.toLowerCase()], as far as the sources use it: its result is only
    ever compared with the ASCII literals '.jpg', '.jpeg', '.png' and
    '.tiff'.  A to Z go to a to z.  Every other code unit is left in
    place: the Unicode mapping sends none of them onto a letter of these
    literals (the Kelvin sign goes to k, U+0130 to i followed by U+0307),
    so each comparison is decided as in JavaScript. *)
Definition lowerUnit (c : N) : N :=
  if (N.leb 65 c && N.leb c 90)%bool then (c + 32)%N else c.

Definition toLowerCase (s : jsstring) : jsstring := map lowerUnit s.

(** [s.endsWith(suffix)]. *)
Definition endsWith (s suffix : jsstring) : bool :=
  streq (skipn (List.length s - List.length suffix) s) suffix.

(** [s.startsWith(prefix)]. *)
Definition startsWith (s prefix : jsstring) : bool :=
  streq (firstn (List.length prefix) s) prefix.

End Path.
Import Path.

(* ===================================================================== *)
(** * What the programs print                                             *)
(* ===================================================================== *)

Module Console.

(** A thrown value: an [Error] with its message, or anything else. *)
Inductive thrown : Type :=
| ErrorObject (message : jsstring)
| OtherValue.

(** One call of [console.log], [console.warn] or [console.error]; the
    last form is [console.error(s, error)]. *)
Inductive line : Type :=
| Log (s : jsstring)
| Warn (s : jsstring)
| Error (s : jsstring)
| ErrorWith (s : jsstring) (e : thrown).

End Console.
Import Console.

(* ===================================================================== *)
(** * [utils/file-processor.ts]                                           *)
(* ===================================================================== *)

Module FileProcessor.

Definition validExtensions : list jsstring :=
  [lit ".jpg"; lit ".jpeg"; lit ".png"; lit ".tiff"].

(** [xs.includes(x)] on strings. *)
Definition includes (xs : list jsstring) (x : jsstring) : bool :=
  existsb (streq x) xs.

(** The predicate of the filter:
<<
    file => validExtensions.includes(path.extname(file).toLowerCase())
>>  *)
Definition isSupported (file : jsstring) : bool :=
  includes validExtensions (toLowerCase (extname file)).

(** [getScanFiles]; the argument is what [fs.readdirSync(SCANS_DIR)]
    returns, [None] when it throws. *)
Definition getScanFiles (readdir : option (list jsstring)) : list jsstring :=
  match readdir with
  | Some entries => filter isSupported entries
  | None => []
  end.

(** The name [saveOcrResult] writes under in the output directory:
<<
    const baseName = path.parse(filename).name;
    const targetPath = path.join(OUTPUT_DIR, `${baseName}.json`);
>>  *)
Definition outputName (filename : jsstring) : jsstring :=
  parseName filename ++ lit ".json".

(** The files of the output directory, by name. *)
Definition directory (D : Type) : Type := jsstring -> option D.

(** The output directory after a call of [saveOcrResult] that returns:
    the file of that name is created or replaced.  A call in which
    [fs.writeFileSync] throws is an [outcome] of the pipeline below. *)
Definition saveOcrResult {D : Type} (filename : jsstring) (data : D)
           (output : directory D) : directory D :=
  fun name => if streq name (outputName filename) then Some data
              else output name.

(** The two working directories: the entries of [data/scans] when it
    exists, and whether [data/output] exists. *)
Record Disk := { scans : option (list jsstring); outputExists : bool }.

Inductive workingDir : Type := SCANS_DIR | OUTPUT_DIR.

(** [ensureDirectories]: the directories it creates, in order, and the
    disk afterwards. *)
Definition ensureDirectories (disk : Disk) : list workingDir * Disk :=
  ((match scans disk with None => [SCANS_DIR] | Some _ => [] end)
   ++ (if outputExists disk then [] else [OUTPUT_DIR]),
   {| scans := Some (match scans disk with Some l => l | None => [] end);
      outputExists := true |}).

End FileProcessor.
Import FileProcessor.

(* ===================================================================== *)
(** * [drivers/vision.ts] and [index.ts]                                  *)
(* ===================================================================== *)

Module Pipeline.

Section Driver.

(** The annotation objects of the Vision client. *)
Variable D : Type.

(** What happens between the call of [performOCR] and the reading of
    [result.fullTextAnnotation]: something is thrown (the image cannot
    be read, the request is rejected), or a result arrives, with or
    without an annotation. *)
Inductive reply : Type :=
| Fails (e : thrown)
| Replies (fullTextAnnotation : option D).

Variable service : jsstring -> reply.

Definition messageOf (e : thrown) : jsstring :=
  match e with
  | ErrorObject m => m
  | OtherValue => lit "Unknown API Error"
  end.

Definition emptyResult (imagePath : jsstring) : thrown :=
  ErrorObject (lit "The OCR engine returned an empty result for: "
               ++ imagePath).

(** [performOCR] of the driver that exports [closeVisionClient] as
    well, the one both versions of [main] import from: what it prints,
    and the annotation it returns or the value it throws.  The [throw]
    of the empty result is inside the [try], so it is caught, printed
    and thrown again like any other. *)
Definition performOCR (imagePath : jsstring)
  : list line * (option D + thrown) :=
  let attempt : option D + thrown :=
    match service imagePath with
    | Fails e => inr e
    | Replies None => inr (emptyResult imagePath)
    | Replies (Some a) => inl (Some a)
    end in
  match attempt with
  | inl a => ([], inl a)
  | inr e =>
      ([Error (lit "[!] API Request Failure: " ++ imagePath ++ lit " - "
               ++ messageOf e)],
       inr e)
  end.

(** What a call of [saveOcrResult] does in the iteration of a scan:
    [fs.writeFileSync] returns, or something is thrown (the output name
    is too long, the directory is not writable, the device is full).
    [left] is what a call that throws has made of the output file:
    [None] when the file is as it was before the call, [Some content]
    when the file now holds [content] -- the JSON text of an annotation
    or, [None], something else. *)
Inductive outcome : Type :=
| Returns
| Throws (error : thrown) (left : option (option D)).

Variable saving : jsstring -> outcome.

(** [path.join(process.cwd(), 'data', 'scans', file)]. *)
Variable scanPath : jsstring -> jsstring.

(** What [main] does, in order: directories created, lines printed,
    calls of [saveOcrResult] with the value they are given ([None] for
    [null] or [undefined], which [performOCR] never returns), and
    [closeVisionClient]. *)
Inductive effect : Type :=
| Mkdir (d : workingDir)
| Print (l : line)
| Save (filename : jsstring) (data : option D)
| Close.

(** The line of the [catch] of the loop. *)
Definition caught (file : jsstring) (error : thrown) : line :=
  ErrorWith (lit "Error encountered while processing " ++ file ++ lit ":")
            error.

(** [saveOcrResult(file, ocrData)] and the line after it, inside the
    [try]: when the call throws, the line is the one of the [catch]. *)
Definition save (file : jsstring) (ocrData : option D) (done : line)
  : list effect :=
  Save file ocrData
  :: match saving file with
     | Returns => [Print done]
     | Throws error _ => [Print (caught file error)]
     end.

(** The body of the loop of the [main] that tests [ocrData]. *)
Definition processChecked (file : jsstring) : list effect :=
  Print (Log (lit "Processing: " ++ file))
  :: match performOCR (scanPath file) with
     | (printed, inl (Some ocrData)) =>
         map Print printed
         ++ save file (Some ocrData)
                 (Log (lit "Saved OCR data for: " ++ file))
     | (printed, inl None) =>
         map Print printed
         ++ [Print (Warn (lit "[!] Skipping " ++ file
                          ++ lit ": API returned no content."))]
     | (printed, inr error) =>
         map Print printed ++ [Print (caught file error)]
     end.

Definition mainChecked (disk : Disk) : list effect :=
  let (created, disk) := ensureDirectories disk in
  let files := getScanFiles (scans disk) in
  map Mkdir created
  ++ match files with
     | [] => [Print (Log (lit "No scan files found in the input directory."))]
     | _ =>
         flat_map processChecked files
         ++ [Close; Print (Log (lit "Batch processing complete."))]
     end.

(** The body of the loop of the [main] that saves what it gets.  It
    imports [performOCR] and [closeVisionClient] from the same driver as
    the other [main]. *)
Definition process (file : jsstring) : list effect :=
  Print (Log (lit "Starting OCR for: " ++ file))
  :: match performOCR (scanPath file) with
     | (printed, inl ocrData) =>
         map Print printed
         ++ save file ocrData
                 (Log (lit "Successfully processed and saved JSON for: "
                       ++ file))
     | (printed, inr error) =>
         map Print printed ++ [Print (caught file error)]
     end.

Definition main (disk : Disk) : list effect :=
  let (created, disk) := ensureDirectories disk in
  let files := getScanFiles (scans disk) in
  map Mkdir created
  ++ match files with
     | [] => [Print (Log (lit "No scan files found in the input directory."))]
     | _ =>
         flat_map process files
         ++ [Close; Print (Log (lit "All tasks complete. Connection closed."))]
     end.

(** The calls of [saveOcrResult] in a run. *)
Definition saves (run : list effect) : list (jsstring * option D) :=
  flat_map (fun e => match e with Save f d => [(f, d)] | _ => [] end) run.

(** The output directory a run leaves.  A file holds the JSON text of
    an annotation ([Some]) or something else ([None]): the text
    [null], or what a write that failed has left. *)
Definition written (output : directory (option D))
           (call : jsstring * option D) : directory (option D) :=
  match saving (fst call) with
  | Returns => saveOcrResult (fst call) (snd call) output
  | Throws _ (Some content) => saveOcrResult (fst call) content output
  | Throws _ None => output
  end.

Definition outputAfter (run : list effect) (output : directory (option D))
  : directory (option D) :=
  fold_left written (saves run) output.

End Driver.

Arguments Fails {D} e.
Arguments Replies {D} fullTextAnnotation.
Arguments Returns {D}.
Arguments Throws {D} error left.
Arguments Mkdir {D} d.
Arguments Print {D} l.
Arguments Save {D} filename data.
Arguments Close {D}.

End Pipeline.

(* ===================================================================== *)
(** * [utils/sanity-check.ts]                                             *)
(* ===================================================================== *)

Module SanityCheck.

Definition hexDigit (d : N) : N :=
  if N.ltb d 10 then (48 + d)%N else (87 + d)%N.

(** Two lower-case hexadecimal digits per byte. *)
Definition hexByte (b : N) : jsstring :=
  [hexDigit (N.div b 16); hexDigit (N.modulo b 16)].

(** [Buffer.alloc(4)] after [fs.readSync(fd, buffer, 0, 4, 0)]: the
    first four bytes of the file, zeros where the file is shorter. *)
Definition header (bytes : list Byte.byte) : list N :=
  firstn 4 (map Byte.to_N bytes ++ repeat 0%N 4).

(** [buffer.toString('hex')]. *)
Definition hexHeader (bytes : list Byte.byte) : jsstring :=
  flat_map hexByte (header bytes).

(** [(fs.statSync(filePath).size / (1024 * 1024)).toFixed(2)]. *)
Definition fileSizeMB (bytes : list Byte.byte) : jsstring :=
  toFixed (ofNat (List.length bytes) / 1048576)%float 2.

(** [validateRawBinary]; the file is its bytes, [None] when opening,
    reading or [statSync] throws. *)
Definition validateRawBinary (fileName : jsstring)
           (file : option (list Byte.byte)) : list line :=
  match file with
  | Some bytes =>
      let hexHeader := hexHeader bytes in
      let fileSizeMB := fileSizeMB bytes in
      [Log (lit "FILE: " ++ fileName);
       Log (lit "- Detected Hex Header: " ++ hexHeader);
       Log (lit "- File Size: " ++ fileSizeMB ++ lit " MB");
       if startsWith hexHeader (lit "ffd8")
       then Log (lit "- [VALID] This is a legitimate JPEG binary.")
       else Error (lit "- [INVALID] Header " ++ hexHeader
                   ++ lit " does not match JPEG format.");
       Log (lit "---")]
  | None =>
      [Error (lit "- [!] CRITICAL: Could not read file " ++ fileName
              ++ lit ".");
       Log (lit "---")]
  end.

(** The predicate of the filter of [main]:
<<
    f => f.toLowerCase().endsWith('.jpg')
>>  *)
Definition isJpg (f : jsstring) : bool :=
  endsWith (toLowerCase f) (lit ".jpg").

(** [main]; the directory is its entries with their files, [None] when
    [fs.readdirSync(SCANS_DIR)] throws, which nothing catches. *)
Definition main (scans : option (list (jsstring * option (list Byte.byte))))
  : option (list line) :=
  match scans with
  | None => None
  | Some entries =>
      let files := filter (fun e => isJpg (fst e)) entries in
      Some (Log (lit "Inspecting " ++ digits (N.of_nat (List.length files))
                 ++ lit " file headers..." ++ LF)
            :: flat_map (fun e => validateRawBinary (fst e) (snd e)) files)
  end.

End SanityCheck.

(* ===================================================================== *)
(** * A parsed value read at the interface type                           *)
(* ===================================================================== *)

(** The sources annotate what [JSON.parse] returns with the
    [VisionAnnotation] interface.  [castAnnotation] reads a parsed value
    at that type: a property is absent when the key is missing or holds
    [null], and keys the interface does not name are not looked at.  A
    number, a string, a boolean or an array read as an annotation has
    neither [pages] nor [text].  Inside an object, a property that
    holds a value of another kind than the interface declares makes the
    cast fail: on such values the extractors and the audit are not
    modelled. *)
Module Cast.

Definition optional {A} (cast : json -> option A) (v : value)
  : option (option A) :=
  match v with
  | None | Some JNull => Some None
  | Some j => option_map Some (cast j)
  end.

Fixpoint each {A} (cast : json -> option A) (items : list json)
  : option (list A) :=
  match items with
  | [] => Some []
  | j :: rest =>
      match cast j, each cast rest with
      | Some a, Some l => Some (a :: l)
      | _, _ => None
      end
  end.

Definition castArray {A} (cast : json -> option A) (j : json)
  : option (list A) :=
  match j with
  | JArr items => each cast items
  | _ => None
  end.

Definition castString (j : json) : option jsstring :=
  match j with JStr s => Some s | _ => None end.

Definition castNumber (j : json) : option float :=
  match j with JNum x => Some x | _ => None end.

Definition castObject {A} (read : list (jsstring * json) -> option A)
           (j : json) : option A :=
  match j with JObj fields => read fields | _ => None end.

Definition castBreak : json -> option DetectedBreak :=
  castObject (fun fields =>
    match optional castString (lookup (lit "type") fields) with
    | Some t => Some {| break_type := t |}
    | None => None
    end).

Definition castProperty : json -> option Property :=
  castObject (fun fields =>
    match optional castBreak (lookup (lit "detectedBreak") fields) with
    | Some b => Some {| detectedBreak := b |}
    | None => None
    end).

Definition castSymbol : json -> option Symbol :=
  castObject (fun fields =>
    match optional castString (lookup (lit "text") fields),
          optional castProperty (lookup (lit "property") fields) with
    | Some t, Some p => Some {| symbol_text := t; property := p |}
    | _, _ => None
    end).

Definition castWord : json -> option Word :=
  castObject (fun fields =>
    match optional (castArray castSymbol) (lookup (lit "symbols") fields),
          optional castNumber (lookup (lit "confidence") fields) with
    | Some s, Some c => Some {| symbols := s; confidence := c |}
    | _, _ => None
    end).

Definition castParagraph : json -> option Paragraph :=
  castObject (fun fields =>
    match optional (castArray castWord) (lookup (lit "words") fields) with
    | Some w => Some {| words := w |}
    | None => None
    end).

Definition castBlock : json -> option Block :=
  castObject (fun fields =>
    match optional (castArray castParagraph)
                   (lookup (lit "paragraphs") fields) with
    | Some p => Some {| paragraphs := p |}
    | None => None
    end).

Definition castPage : json -> option Page :=
  castObject (fun fields =>
    match optional (castArray castBlock) (lookup (lit "blocks") fields) with
    | Some b => Some {| blocks := b |}
    | None => None
    end).

Definition castAnnotation (j : json) : option VisionAnnotation :=
  match j with
  | JObj fields =>
      match optional (castArray castPage) (lookup (lit "pages") fields),
            optional castString (lookup (lit "text") fields) with
      | Some p, Some t => Some {| pages := p; text := t |}
      | _, _ => None
      end
  | JNull => None
  | _ => Some {| pages := None; text := None |}
  end.

End Cast.
Import Cast.

(* ===================================================================== *)
(** * The command lines of [extract-text.ts] and [validate.ts]            *)
(* ===================================================================== *)

Module Cli.

(** A file as a program finds it: not there, there but not JSON, or
    holding a parsed value. *)
Inductive file : Type :=
| Missing
| Garbled
| Holds (j : json).

(** How a run of [extract-text.ts] ends: [process.exit(1)] after lines
    on the error stream, the normal end with what was written to the
    standard output, or an exception nothing catches.  [Untyped] is no
    ending of the program: it marks the files whose value has, inside an
    object, a property of another kind than the interface declares (see
    [castAnnotation]), on which the run is not modelled. *)
Inductive ending : Type :=
| Exit1 (errors : list jsstring)
| Done (stdout : jsstring)
| Uncaught
| Untyped.

Definition usage : jsstring :=
  lit "Usage: npx tsx src/utils/extract-text.ts <path-to-vision-output.json>".

Section ExtractText.

(** [process.argv[2]]; the path it resolves to
    ([path.isAbsolute(p) ? p : path.resolve(process.cwd(), p)]); the
    files by resolved path. *)
Variable arg : option jsstring.
Variable resolve : jsstring -> jsstring.
Variable disk : jsstring -> file.

(** The frame both command lines share: the argument test, the test of
    the file in [loadVisionFile], the unwrapping, the extraction and
    the writing of the text. *)
Definition run (usageLines : list jsstring)
           (loadVisionFile : json -> result json)
           (extractText : VisionAnnotation -> result jsstring)
           (write : jsstring -> jsstring) : ending :=
  match arg with
  | None | Some [] => Exit1 usageLines
  | Some filePath =>
      let resolved := resolve filePath in
      match disk resolved with
      | Missing => Exit1 [lit "[!] File not found: " ++ resolved]
      | Garbled => Uncaught
      | Holds json =>
          match loadVisionFile json with
          | TypeError => Uncaught
          | Ok data =>
              match castAnnotation data with
              | None => Untyped
              | Some data =>
                  match extractText data with
                  | TypeError => Uncaught
                  | Ok text => Done (write text)
                  end
              end
          end
      end
  end.

(** The hierarchy-first [main]:
<<
    process.stdout.write(text);
    if (text.length > 0) process.stdout.write('\n');
>>  *)
Definition writeHierarchyFirst (text : jsstring) : jsstring :=
  text ++ (if Nat.ltb 0 (List.length text) then LF else []).

Definition mainHierarchyFirst : ending :=
  run [usage] HierarchyFirst.loadVisionFile HierarchyFirst.extractText
      writeHierarchyFirst.

(** The text-first [main]:
<<
    process.stdout.write(text);
    if (text.length > 0 && !text.endsWith('\n')) process.stdout.write('\n');
>>  *)
Definition writeTextFirst (text : jsstring) : jsstring :=
  text ++ (if (Nat.ltb 0 (List.length text) && negb (endsWithLF text))%bool
           then LF else []).

Definition mainTextFirst : ending :=
  run [usage;
       lit "Example: npx tsx src/utils/extract-text.ts data/output/05.json"]
      TextFirst.loadVisionFile TextFirst.extractText writeTextFirst.

End ExtractText.

(** How a run of [validate.ts] ends: normally, or by an exception
    nothing catches, in each case after the lines printed so far.
    [OutsideInterface] is no ending of the program: it marks a file on
    which the audit is not modelled (see [castAnnotation]), and what is
    printed from that file on is not described. *)
Inductive status : Type := Finished | Crashed | OutsideInterface.

(** [auditJsonFile] from the file on: reading, parsing, the choice of
    the annotation, the audit. *)
Definition auditFile (fileName : jsstring) (f : file)
  : list jsstring * status :=
  match f with
  | Missing | Garbled => ([], Crashed)
  | Holds json =>
      match Validate.selectAnnotation json with
      | TypeError => ([], Crashed)
      | Ok data =>
          match castAnnotation data with
          | None => ([], OutsideInterface)
          | Some data =>
              match Validate.auditJsonFile fileName data with
              | TypeError => ([], Crashed)
              | Ok lines => (lines, Finished)
              end
          end
      end
  end.

(** [jsonFiles.forEach(auditJsonFile)]: the first file on which the
    audit throws ends the run; the description ends at the first file
    outside the interface. *)
Fixpoint auditAll (files : list (jsstring * file)) : list jsstring * status :=
  match files with
  | [] => ([], Finished)
  | (fileName, f) :: rest =>
      match auditFile fileName f with
      | (lines, Finished) =>
          let (more, s) := auditAll rest in (lines ++ more, s)
      | (lines, s) => (lines, s)
      end
  end.

(** The predicate of the filter of [main]: [f => f.endsWith('.json')]. *)
Definition isJson (f : jsstring) : bool := endsWith f (lit ".json").

(** [main] of [validate.ts]; the output directory is its entries with
    their files, [None] when it does not exist. *)
Definition mainValidate (outputDir : option (list (jsstring * file)))
  : list line * status :=
  match outputDir with
  | None =>
      ([Error (lit "Failure: The " ++ [34%N] ++ lit "data/output" ++ [34%N]
               ++ lit " directory does not exist.")],
       Finished)
  | Some entries =>
      let jsonFiles := filter (fun e => isJson (fst e)) entries in
      match jsonFiles with
      | [] => ([Warn (lit "Empty: No JSON files found in data/output.")],
               Finished)
      | _ =>
          let (lines, s) := auditAll jsonFiles in
          (Log (lit "Auditing " ++ digits (N.of_nat (List.length jsonFiles))
                ++ lit " files..." ++ LF)
           :: map Log lines, s)
      end
  end.

End Cli.

(* ===================================================================== *)
(** * What the file names and the runs are compared with                  *)
(* ===================================================================== *)

Module Names.

(** A name without a slash, a name without a dot, and the extensions of
    the supported scans without their dot. *)
Definition noSlash (s : jsstring) : bool :=
  forallb (fun c => negb (isSlash c)) s.

Definition noDot (s : jsstring) : bool :=
  forallb (fun c => negb (isDot c)) s.

Definition imageExtensions : list jsstring :=
  [lit "jpg"; lit "jpeg"; lit "png"; lit "tiff"].

(** The first two bytes are FF D8. *)
Definition isJpegStart (bytes : list Byte.byte) : bool :=
  match bytes with
  | b1 :: b2 :: _ => (Byte.eqb b1 Byte.xff && Byte.eqb b2 Byte.xd8)%bool
  | _ => false
  end.

End Names.
Import Names.

Module Run.

(** The scans a run works on: the supported entries of the scans
    directory, none when the directory had to be created. *)
Definition scansOf (disk : Disk) : list jsstring :=
  getScanFiles (scans (snd (ensureDirectories disk))).

Section Service.

Variable D : Type.
Variable service : jsstring -> Pipeline.reply D.
Variable scanPath : jsstring -> jsstring.

(** The result a scan is saved with: the annotation of the reply, when
    there is one. *)
Definition saved (file : jsstring) : list (jsstring * option D) :=
  match service (scanPath file) with
  | Pipeline.Replies (Some a) => [(file, Some a)]
  | _ => []
  end.

Definition isWarning (e : Pipeline.effect D) : bool :=
  match e with
  | Pipeline.Print (Warn _) => true
  | _ => false
  end.

Definition isClose (e : Pipeline.effect D) : bool :=
  match e with
  | Pipeline.Close => true
  | _ => false
  end.

End Service.

(** A scans directory with two scans of the same stem, a file that is
    no scan, and a third scan; a service that answers the first and the
    last. *)
Definition sampleDisk : Disk :=
  {| scans := Some [lit "a.jpg"; lit "a.png"; lit "notes.txt"; lit "b.jpg"];
     outputExists := false |}.

Definition samplePath (file : jsstring) : jsstring :=
  lit "/work/data/scans/" ++ file.

Definition sampleService (imagePath : jsstring) : Pipeline.reply nat :=
  if streq imagePath (lit "/work/data/scans/a.jpg")
  then Pipeline.Replies (Some 1)
  else if streq imagePath (lit "/work/data/scans/b.jpg")
       then Pipeline.Replies (Some 2)
       else Pipeline.Fails OtherValue.

(** The write of the last scan fails and leaves no file. *)
Definition sampleSaving (file : jsstring) : Pipeline.outcome nat :=
  if streq file (lit "b.jpg") then Pipeline.Throws OtherValue None
  else Pipeline.Returns.

(** An output directory with an audited file, a file that is not JSON
    and a third file. *)
Definition sampleOutput : list (jsstring * Cli.file) :=
  [(lit "05.json", Cli.Holds (toJson threeWords));
   (lit "06.json", Cli.Garbled);
   (lit "07.json", Cli.Holds (toJson threeWords))].

End Run.

(* ===================================================================== *)
(** * Normalisation of the raw input shapes                               *)
(* ===================================================================== *)

Lemma toJson_is_object (C : VisionAnnotation) :
  exists fields,
    toJson C = JObj fields
    /\ lookup (lit "responses") fields = None
    /\ lookup (lit "fullTextAnnotation") fields = None.
Proof.
  destruct C as [[ps|] [t|]]; eexists; (split; [reflexivity|]);
    split; reflexivity.
Qed.

Section Shapes.

Variable fields : list (jsstring * json).
Hypothesis no_responses : lookup (lit "responses") fields = None.
Hypothesis no_wrapper : lookup (lit "fullTextAnnotation") fields = None.

Let c : json := JObj fields.

Lemma HierarchyFirst_root : HierarchyFirst.loadVisionFile c = Ok c.
Proof.
  unfold HierarchyFirst.loadVisionFile, HierarchyFirst.rootOf,
    HierarchyFirst.dataOf, getField, bind; subst c; cbv beta iota.
  rewrite no_responses; cbn [truthy typeofObject].
  rewrite no_wrapper. reflexivity.
Qed.

Lemma HierarchyFirst_wrapped :
  HierarchyFirst.loadVisionFile (underFullTextAnnotation c) = Ok c.
Proof. reflexivity. Qed.

Lemma HierarchyFirst_responses :
  HierarchyFirst.loadVisionFile (underResponses c) = Ok c.
Proof.
  unfold HierarchyFirst.loadVisionFile, HierarchyFirst.rootOf,
    HierarchyFirst.dataOf, underResponses; subst c.
  change (getField (lit "responses")
            (JObj [(lit "responses", JArr [JObj fields])]))
    with (Ok (A:=value) (Some (JArr [JObj fields]))).
  cbn [nth_error truthy typeofObject getField bind].
  rewrite no_wrapper. reflexivity.
Qed.

Lemma HierarchyFirst_responses_wrapped :
  HierarchyFirst.loadVisionFile (underResponses (underFullTextAnnotation c))
  = Ok c.
Proof. reflexivity. Qed.

(** The other two normalisers know the root and the
    [fullTextAnnotation] shapes only. *)
Lemma TextFirst_root : TextFirst.loadVisionFile c = Ok c.
Proof.
  unfold TextFirst.loadVisionFile, getField, bind; subst c; cbv beta iota.
  rewrite no_wrapper. reflexivity.
Qed.

Lemma TextFirst_wrapped :
  TextFirst.loadVisionFile (underFullTextAnnotation c) = Ok c.
Proof. reflexivity. Qed.

Lemma TextFirst_responses_unchanged :
  TextFirst.loadVisionFile (underResponses c) = Ok (underResponses c).
Proof. reflexivity. Qed.

Lemma Validate_root : Validate.selectAnnotation c = Ok c.
Proof.
  unfold Validate.selectAnnotation, getField, bind; subst c; cbv beta iota.
  rewrite no_wrapper. reflexivity.
Qed.

Lemma Validate_wrapped :
  Validate.selectAnnotation (underFullTextAnnotation c) = Ok c.
Proof. reflexivity. Qed.

Lemma Validate_responses_unchanged :
  Validate.selectAnnotation (underResponses c) = Ok (underResponses c).
Proof. reflexivity. Qed.

End Shapes.

(** The steps of the hierarchy-first normaliser on objects with any
    further keys. *)
Lemma rootOf_first (r : list (jsstring * json)) (first : json)
      (rest : list json) :
  lookup (lit "responses") r = Some (JArr (first :: rest)) ->
  HierarchyFirst.rootOf (JObj r) = Ok (Some first).
Proof.
  intros H. unfold HierarchyFirst.rootOf; cbn [getField bind].
  now rewrite H.
Qed.

Lemma rootOf_self (w : list (jsstring * json)) :
  (forall items, lookup (lit "responses") w <> Some (JArr items)) ->
  HierarchyFirst.rootOf (JObj w) = Ok (Some (JObj w)).
Proof.
  intros H. unfold HierarchyFirst.rootOf; cbn [getField bind].
  destruct (lookup (lit "responses") w) as [[| | | |items|]|] eqn:E;
    try reflexivity.
  now elim (H items).
Qed.

Lemma dataOf_root (fields : list (jsstring * json)) (j : json) :
  lookup (lit "fullTextAnnotation") fields = None ->
  HierarchyFirst.dataOf (Some (JObj fields)) j = Ok (JObj fields).
Proof.
  intros H. unfold HierarchyFirst.dataOf;
    cbn [truthy typeofObject getField bind].
  now rewrite H.
Qed.

Lemma dataOf_wrapper (w fields : list (jsstring * json)) (j : json) :
  lookup (lit "fullTextAnnotation") w = Some (JObj fields) ->
  HierarchyFirst.dataOf (Some (JObj w)) j = Ok (JObj fields).
Proof.
  intros H. unfold HierarchyFirst.dataOf;
    cbn [truthy typeofObject getField bind].
  now rewrite H.
Qed.

(** A [responses] wrapper is not the document: the text-first
    [loadVisionFile] and the selection of the audit hand it back as it
    is, where the hierarchy-first [loadVisionFile] returns the document
    inside. *)
Lemma responses_wrapper_is_kept :
  TextFirst.loadVisionFile (underResponses (toJson catDog))
  = Ok (underResponses (toJson catDog))
  /\ Validate.selectAnnotation (underResponses (toJson catDog))
     = Ok (underResponses (toJson catDog))
  /\ HierarchyFirst.loadVisionFile (underResponses (toJson catDog))
     = Ok (toJson catDog)
  /\ underResponses (toJson catDog) <> toJson catDog.
Proof.
  split; [reflexivity|]. split; [reflexivity|]. split; [reflexivity|].
  intros H. vm_compute in H. discriminate H.
Qed.

(** C1 (as the code has it).  For every annotation content [C], with
    [c] its JSON object: the hierarchy-first [loadVisionFile] returns
    [c] on all raw shapes, whatever further keys the wrappers have --
    [c] at the root, under [fullTextAnnotation], as [responses[0]], and
    under [fullTextAnnotation] inside [responses[0]].  The text-first
    [loadVisionFile] and the selection of the audit return [c] on the
    first two shapes only: an object with a [responses] array and no
    [fullTextAnnotation] of its own is returned as it is, and it is not
    [c]. *)
Theorem normalize_shapes_agree (C : VisionAnnotation) :
  let c := toJson C in
  (HierarchyFirst.loadVisionFile c = Ok c
   /\ (forall w,
         lookup (lit "fullTextAnnotation") w = Some c ->
         (forall items, lookup (lit "responses") w <> Some (JArr items)) ->
         HierarchyFirst.loadVisionFile (JObj w) = Ok c)
   /\ (forall r rest,
         lookup (lit "responses") r = Some (JArr (c :: rest)) ->
         HierarchyFirst.loadVisionFile (JObj r) = Ok c)
   /\ (forall r w rest,
         lookup (lit "responses") r = Some (JArr (JObj w :: rest)) ->
         lookup (lit "fullTextAnnotation") w = Some c ->
         HierarchyFirst.loadVisionFile (JObj r) = Ok c))
  /\ (TextFirst.loadVisionFile c = Ok c
      /\ Validate.selectAnnotation c = Ok c
      /\ (forall w,
            lookup (lit "fullTextAnnotation") w = Some c ->
            TextFirst.loadVisionFile (JObj w) = Ok c
            /\ Validate.selectAnnotation (JObj w) = Ok c))
  /\ (forall r items,
        lookup (lit "responses") r = Some (JArr items) ->
        lookup (lit "fullTextAnnotation") r = None ->
        TextFirst.loadVisionFile (JObj r) = Ok (JObj r)
        /\ Validate.selectAnnotation (JObj r) = Ok (JObj r)
        /\ JObj r <> c).
Proof.
  cbv zeta.
  destruct (toJson_is_object C) as (fields & -> & Hr & Hw).
  split; [|split].
  - split; [now apply HierarchyFirst_root|]. split; [|split].
    + intros w Hc Hno. unfold HierarchyFirst.loadVisionFile.
      rewrite (rootOf_self _ Hno); cbn [bind].
      now apply dataOf_wrapper.
    + intros r rest Hfirst. unfold HierarchyFirst.loadVisionFile.
      rewrite (rootOf_first _ Hfirst); cbn [bind].
      now apply dataOf_root.
    + intros r w rest Hfirst Hc. unfold HierarchyFirst.loadVisionFile.
      rewrite (rootOf_first _ Hfirst); cbn [bind].
      now apply dataOf_wrapper.
  - split; [now apply TextFirst_root|]. split; [now apply Validate_root|].
    intros w Hc.
    unfold TextFirst.loadVisionFile, Validate.selectAnnotation;
      cbn [getField bind]; rewrite Hc. now split.
  - intros r items Hitems Hnone.
    unfold TextFirst.loadVisionFile, Validate.selectAnnotation;
      cbn [getField bind]; rewrite Hnone.
    split; [reflexivity|]. split; [reflexivity|].
    intros [= ->]. congruence.
Qed.

(** The other two normalisers agree with it on the two shapes they
    know. *)
Lemma two_shape_normalisers (C : VisionAnnotation) :
  TextFirst.loadVisionFile (toJson C) = Ok (toJson C)
  /\ TextFirst.loadVisionFile (underFullTextAnnotation (toJson C))
     = Ok (toJson C)
  /\ Validate.selectAnnotation (toJson C) = Ok (toJson C)
  /\ Validate.selectAnnotation (underFullTextAnnotation (toJson C))
     = Ok (toJson C).
Proof.
  destruct (toJson_is_object C) as (fields & -> & Hr & Hw).
  split; [|split; [|split]].
  - now apply TextFirst_root.
  - apply TextFirst_wrapped.
  - now apply Validate_root.
  - apply Validate_wrapped.
Qed.

(* ===================================================================== *)
(** * The [responses] wrapper                                             *)
(* ===================================================================== *)

(** An empty [responses] array is no failure: [root] is [undefined], and
    the last [?? json] hands the input object back as the document. *)
Lemma empty_responses_is_returned :
  HierarchyFirst.loadVisionFile emptyResponses = Ok emptyResponses.
Proof. reflexivity. Qed.

Lemma dataOf_ignores_fallback (r j j' : json) :
  r <> JNull ->
  HierarchyFirst.dataOf (Some r) j = HierarchyFirst.dataOf (Some r) j'.
Proof.
  intros Hr. unfold HierarchyFirst.dataOf.
  destruct r as [|b|x|s|l|f]; [congruence|..].
  - destruct b; reflexivity.
  - destruct (truthy (JNum x)); reflexivity.
  - destruct (truthy (JStr s)); reflexivity.
  - reflexivity.
  - cbn [truthy typeofObject getField bind].
    destruct (lookup (lit "fullTextAnnotation") f) as [[]|]; reflexivity.
Qed.

(** C9 (as the code has it).  For an input object whose [responses]
    field is an array: when the array is empty the input object itself
    is the result, without any failure; when it is non-empty the working
    value is [responses[0]], and unless that element is [null] the result
    is computed from it alone -- the second statement applied to
    [responses[0]] -- while a [null] first element again yields the input
    object. *)
Theorem responses_array_normalisation
  (fields : list (jsstring * json)) (items : list json)
  (H : lookup (lit "responses") fields = Some (JArr items)) :
  HierarchyFirst.rootOf (JObj fields) = Ok (nth_error items 0)
  /\ match items with
     | [] => HierarchyFirst.loadVisionFile (JObj fields) = Ok (JObj fields)
     | JNull :: _ =>
         HierarchyFirst.loadVisionFile (JObj fields) = Ok (JObj fields)
     | r :: _ =>
         HierarchyFirst.loadVisionFile (JObj fields)
         = HierarchyFirst.dataOf (Some r) r
     end.
Proof.
  assert (Hroot : HierarchyFirst.rootOf (JObj fields)
                  = Ok (nth_error items 0)).
  { unfold HierarchyFirst.rootOf, getField, bind; cbv beta iota.
    now rewrite H. }
  split; [exact Hroot|].
  unfold HierarchyFirst.loadVisionFile. rewrite Hroot; cbn.
  destruct items as [|r rest]; [reflexivity|].
  destruct r; cbn [nth_error]; try reflexivity;
    apply dataOf_ignores_fallback; discriminate.
Qed.

Lemma responses_array_normalisation_witness :
  lookup (lit "responses") [(lit "responses", JArr [toJson textOnly])]
  = Some (JArr [toJson textOnly])
  /\ HierarchyFirst.rootOf (underResponses (toJson textOnly))
     = Ok (Some (toJson textOnly))
  /\ HierarchyFirst.loadVisionFile (underResponses (toJson textOnly))
     = HierarchyFirst.dataOf (Some (toJson textOnly)) (toJson textOnly).
Proof.
  split; [reflexivity|].
  exact (@responses_array_normalisation
           [(lit "responses", JArr [toJson textOnly])]
           [toJson textOnly] eq_refl).
Defined.

(* ===================================================================== *)
(** * The loops of the extractors                                         *)
(* ===================================================================== *)

Section Loops.

Context {A S : Type}.

Lemma iterate_ok (body : A -> S -> result S) (f : A -> S -> S) :
  (forall x s, body x s = Ok (f x s)) ->
  forall xs s, iterate body xs s = Ok (fold_left (fun s x => f x s) xs s).
Proof.
  intros Hbody xs. induction xs as [|x xs IH]; intros s; cbn.
  - reflexivity.
  - rewrite Hbody. cbn. apply IH.
Qed.

Lemma forOf_orEmpty_ok (body : A -> S -> result S) (f : A -> S -> S) :
  (forall x s, body x s = Ok (f x s)) ->
  forall xs s,
    forOf (orEmpty xs) body s
    = Ok (fold_left (fun s x => f x s) (elements xs) s).
Proof.
  intros Hbody [l|] s; cbn [orEmpty forOf elements].
  - now apply iterate_ok.
  - reflexivity.
Qed.

End Loops.

Lemma fold_left_append {A B} (g : A -> list B) (xs : list A) (s : list B) :
  fold_left (fun s x => s ++ g x) xs s = s ++ flat_map g xs.
Proof.
  revert s. induction xs as [|x xs IH]; intros s; cbn.
  - now rewrite app_nil_r.
  - rewrite IH. now rewrite app_assoc.
Qed.

Lemma fold_left_flat_map {A B S} (f : S -> B -> S) (g : A -> list B)
      (xs : list A) (s : S) :
  fold_left f (flat_map g xs) s
  = fold_left (fun s x => fold_left f (g x) s) xs s.
Proof.
  revert s. induction xs as [|x xs IH]; intros s; cbn.
  - reflexivity.
  - rewrite fold_left_app. apply IH.
Qed.

Lemma flat_map_flat_map {A B C} (f : B -> list C) (g : A -> list B)
      (xs : list A) :
  flat_map f (flat_map g xs) = flat_map (fun x => flat_map f (g x)) xs.
Proof.
  induction xs as [|x xs IH]; cbn.
  - reflexivity.
  - now rewrite flat_map_app, IH.
Qed.

Lemma pushBreak_app (bt : option jsstring) (parts more : list jsstring) :
  pushBreak bt (parts ++ more) = parts ++ pushBreak bt more.
Proof.
  unfold pushBreak.
  destruct (isOneOf bt "LINE_BREAK" "EOL_SURE_SPACE");
    [|destruct (isOneOf bt "SPACE" "SURE_SPACE")];
    now rewrite ?app_assoc.
Qed.

Lemma pushText_app (s : Symbol) (parts : list jsstring) :
  pushText s parts = parts ++ textPieces s.
Proof.
  unfold pushText, textPieces. destruct (symbol_text s); cbn.
  - reflexivity.
  - now rewrite app_nil_r.
Qed.

Lemma symbolBody_ok (s : Symbol) (parts : list jsstring) :
  symbolBody s parts = Ok (parts ++ symbolPieces s).
Proof.
  unfold symbolBody, symbolPieces.
  now rewrite pushText_app, pushBreak_app.
Qed.

Lemma wordBody_ok (w : Word) (parts : list jsstring) :
  wordBody w parts = Ok (parts ++ wordPieces w).
Proof.
  unfold wordBody, wordPieces.
  rewrite (forOf_orEmpty_ok _ (fun s parts => parts ++ symbolPieces s)).
  - now rewrite fold_left_append.
  - apply symbolBody_ok.
Qed.

Lemma paragraphBody_ok (p : Paragraph) (parts : list jsstring) :
  paragraphBody p parts = Ok (parts ++ paragraphPieces p).
Proof.
  unfold paragraphBody, paragraphPieces.
  rewrite (forOf_orEmpty_ok _ (fun w parts => parts ++ wordPieces w)).
  - now rewrite fold_left_append.
  - apply wordBody_ok.
Qed.

Lemma paragraphs_ok (b : Block) (parts : list jsstring) :
  forOf (orEmpty (paragraphs b)) paragraphBody parts
  = Ok (parts ++ blockPieces b).
Proof.
  unfold blockPieces.
  rewrite (forOf_orEmpty_ok _ (fun p parts => parts ++ paragraphPieces p)).
  - now rewrite fold_left_append.
  - apply paragraphBody_ok.
Qed.

Lemma HierarchyFirst_blockBody_ok (b : Block) (parts : list jsstring) :
  HierarchyFirst.blockBody b parts
  = Ok (HierarchyFirst.separate (parts ++ blockPieces b)).
Proof.
  unfold HierarchyFirst.blockBody. now rewrite paragraphs_ok.
Qed.

Lemma HierarchyFirst_pageBody_ok (p : Page) (parts : list jsstring) :
  HierarchyFirst.pageBody p parts
  = Ok (separated (elements (blocks p)) parts).
Proof.
  unfold HierarchyFirst.pageBody, separated.
  apply (forOf_orEmpty_ok _
           (fun b s => HierarchyFirst.separate (s ++ blockPieces b))).
  apply HierarchyFirst_blockBody_ok.
Qed.

Lemma HierarchyFirst_emit_ok (data : VisionAnnotation) (ps : list Page) :
  pages data = Some ps ->
  HierarchyFirst.emit data = Ok (separated (allBlocks ps) []).
Proof.
  intros Hps. unfold HierarchyFirst.emit. rewrite Hps. cbn.
  rewrite (iterate_ok _ (fun p s => separated (elements (blocks p)) s)).
  - unfold separated, allBlocks. now rewrite fold_left_flat_map.
  - apply HierarchyFirst_pageBody_ok.
Qed.

Lemma TextFirst_blockBody_ok (b : Block) (parts : list jsstring) :
  TextFirst.blockBody b parts = Ok (parts ++ blockPieces b).
Proof. apply paragraphs_ok. Qed.

Lemma TextFirst_pageBody_ok (p : Page) (parts : list jsstring) :
  TextFirst.pageBody p parts
  = Ok (parts ++ flat_map blockPieces (elements (blocks p))).
Proof.
  unfold TextFirst.pageBody.
  rewrite (forOf_orEmpty_ok _ (fun b parts => parts ++ blockPieces b)).
  - now rewrite fold_left_append.
  - apply TextFirst_blockBody_ok.
Qed.

Lemma TextFirst_emit_ok (data : VisionAnnotation) (ps : list Page) :
  pages data = Some ps ->
  TextFirst.emit data = Ok (flat_map blockPieces (allBlocks ps)).
Proof.
  intros Hps. unfold TextFirst.emit. rewrite Hps. cbn.
  rewrite (iterate_ok _
             (fun p s => s ++ flat_map blockPieces (elements (blocks p)))).
  - rewrite fold_left_append. cbn. unfold allBlocks.
    now rewrite flat_map_flat_map.
  - apply TextFirst_pageBody_ok.
Qed.

(* ===================================================================== *)
(** * Strings                                                             *)
(* ===================================================================== *)

Lemma streq_true_iff (a b : jsstring) : streq a b = true <-> a = b.
Proof.
  revert b. induction a as [|x a IH]; intros [|y b]; cbn; split;
    try congruence; try discriminate.
  - intros H. apply andb_true_iff in H as [Hx Hab].
    apply N.eqb_eq in Hx. apply IH in Hab. congruence.
  - intros [= -> ->]. rewrite N.eqb_refl. cbn. now apply IH.
Qed.

Lemma streq_false_iff (a b : jsstring) : streq a b = false <-> a <> b.
Proof.
  rewrite <- streq_true_iff. destruct (streq a b); split; congruence.
Qed.

Lemma isOneOf_true_iff (bt : option jsstring) (a b : string) :
  isOneOf bt a b = true <-> exists t, bt = Some t /\ (t = lit a \/ t = lit b).
Proof.
  destruct bt as [t|]; cbn.
  - rewrite orb_true_iff, !streq_true_iff. split.
    + intros H. now exists t.
    + now intros (t' & [= <-] & H).
  - split; [discriminate|]. now intros (t & [=] & _).
Qed.

(** The whitespace [pushBreak] appends is the one the specification
    names for the break type. *)
Lemma pushBreak_whitespace (bt : option jsstring) :
  exists ws, whitespaceFor bt ws
             /\ forall parts, pushBreak bt parts = parts ++ ws.
Proof.
  unfold pushBreak.
  destruct (isOneOf bt "LINE_BREAK" "EOL_SURE_SPACE") eqn:Hline.
  { apply isOneOf_true_iff in Hline as (t & -> & Ht).
    exists [LF]. split; [now constructor | reflexivity]. }
  destruct (isOneOf bt "SPACE" "SURE_SPACE") eqn:Hspace.
  { apply isOneOf_true_iff in Hspace as (t & -> & Ht).
    exists [SP]. split; [now constructor | reflexivity]. }
  exists []. split; [|intros; now rewrite app_nil_r].
  destruct bt as [t|]; [|constructor].
  cbn in Hline, Hspace.
  apply orb_false_iff in Hline as [H1 H2], Hspace as [H3 H4].
  apply streq_false_iff in H1, H2, H3, H4. now constructor.
Qed.

Lemma trimStart_split (s : jsstring) :
  exists lead,
    s = lead ++ trimStart s
    /\ forallb isTrimmable lead = true
    /\ startsClean (trimStart s) = true.
Proof.
  induction s as [|c s (lead & Hs & Hlead & Hclean)]; cbn.
  - exists []. auto.
  - destruct (isTrimmable c) eqn:Hc.
    + exists (c :: lead). cbn. rewrite Hc, Hlead. repeat split; auto.
      now f_equal.
    + exists []. cbn. now rewrite Hc.
Qed.

(** [trim] removes a run of strippable code units at each end and
    nothing else. *)
Lemma trim_split (s : jsstring) :
  exists lead trail,
    s = lead ++ trim s ++ trail
    /\ forallb isTrimmable lead = true
    /\ forallb isTrimmable trail = true
    /\ startsClean (trim s) = true
    /\ endsClean (trim s) = true.
Proof.
  destruct (trimStart_split s) as (lead & Hs & Hlead & Hclean).
  destruct (trimStart_split (rev (trimStart s))) as (t & Hr & Ht & Hend).
  exists lead, (rev t).
  assert (Hmid : trimStart s = trim s ++ rev t).
  { unfold trim, trimEnd. rewrite <- rev_app_distr, <- Hr.
    now rewrite rev_involutive. }
  split; [now rewrite <- Hmid|].
  split; [exact Hlead|].
  split; [now rewrite forallb_forall in *; intros x Hx;
          apply Ht, in_rev|].
  split.
  - destruct (trim s) as [|c r] eqn:Htrim; [reflexivity|].
    rewrite Hmid in Hclean. exact Hclean.
  - unfold endsClean, trim, trimEnd. now rewrite rev_involutive.
Qed.

Lemma endsWithLF_app (a p : jsstring) :
  p <> [] -> endsWithLF (a ++ p) = endsWithLF p.
Proof.
  intros Hp. unfold endsWithLF. rewrite rev_app_distr.
  destruct (rev p) as [|c r] eqn:Hrev; [|reflexivity].
  apply (f_equal (@rev N)) in Hrev. rewrite rev_involutive in Hrev.
  now subst.
Qed.

(** The test of the source looks at the last piece pushed; it agrees
    with the text emitted so far unless that piece is the empty
    string. *)
Lemma lastEndsWithLF_join (parts : list jsstring) :
  last parts LF <> [] ->
  HierarchyFirst.lastEndsWithLF parts = endsWithLF (join parts).
Proof.
  destruct (rev parts) as [|p init] eqn:Hrev.
  - apply (f_equal (@rev jsstring)) in Hrev.
    rewrite rev_involutive in Hrev. subst. reflexivity.
  - apply (f_equal (@rev jsstring)) in Hrev.
    rewrite rev_involutive in Hrev. cbn in Hrev. subst parts.
    rewrite last_last. intros Hp.
    unfold HierarchyFirst.lastEndsWithLF, join.
    rewrite rev_app_distr, concat_app. cbn. rewrite app_nil_r.
    now rewrite endsWithLF_app.
Qed.

(* ===================================================================== *)
(** * Text extraction                                                     *)
(* ===================================================================== *)

Lemma noPages_false (data : VisionAnnotation) :
  noPages data = false -> exists p ps, pages data = Some (p :: ps).
Proof.
  unfold noPages. destruct (pages data) as [[|p ps]|]; try discriminate.
  intros _. now exists p, ps.
Qed.

(** What the two extractors return, in closed form. *)
Lemma HierarchyFirst_extractText_ok (data : VisionAnnotation) :
  HierarchyFirst.extractText data
  = Ok (if noPages data then elements (text data)
        else trim (join (separated (allBlocks (elements (pages data))) []))).
Proof.
  unfold HierarchyFirst.extractText.
  destruct (noPages data) eqn:Hno.
  - now destruct (text data).
  - destruct (noPages_false _ Hno) as (p & ps & Hps).
    rewrite (HierarchyFirst_emit_ok _ Hps), Hps. reflexivity.
Qed.

Lemma TextFirst_extractText_ok (data : VisionAnnotation) :
  TextFirst.extractText data
  = Ok (match text data with
        | Some (c :: t) => c :: t
        | _ =>
            if noPages data then []
            else stripTrailingLF
                   (join (flat_map blockPieces
                            (allBlocks (elements (pages data)))))
        end).
Proof.
  unfold TextFirst.extractText.
  assert (Hwalk :
    (if noPages data then Ok []
     else parts <- TextFirst.emit data ;; Ok (stripTrailingLF (join parts)))
    = Ok (if noPages data then []
          else stripTrailingLF
                 (join (flat_map blockPieces
                          (allBlocks (elements (pages data))))))).
  { destruct (noPages data) eqn:Hno; [reflexivity|].
    destruct (noPages_false _ Hno) as (p & ps & Hps).
    rewrite (TextFirst_emit_ok _ Hps), Hps. reflexivity. }
  destruct (text data) as [[|c t]|]; auto.
Qed.

(** Filling in the absent arrays changes no piece. *)
Lemma wordPieces_fill (w : Word) : wordPieces (fillWord w) = wordPieces w.
Proof. reflexivity. Qed.

Lemma flat_map_map {A B C} (f : B -> list C) (g : A -> B) (xs : list A) :
  flat_map f (map g xs) = flat_map (fun x => f (g x)) xs.
Proof.
  induction xs as [|x xs IH]; cbn; [reflexivity | now rewrite IH].
Qed.

Lemma paragraphPieces_fill (p : Paragraph) :
  paragraphPieces (fillParagraph p) = paragraphPieces p.
Proof.
  unfold paragraphPieces; cbn. rewrite flat_map_map.
  apply flat_map_ext. intros w. apply wordPieces_fill.
Qed.

Lemma blockPieces_fill (b : Block) :
  blockPieces (fillBlock b) = blockPieces b.
Proof.
  unfold blockPieces; cbn. rewrite flat_map_map.
  apply flat_map_ext. intros p. apply paragraphPieces_fill.
Qed.

Lemma allBlocks_fill (ps : list Page) :
  allBlocks (map fillPage ps) = map fillBlock (allBlocks ps).
Proof.
  unfold allBlocks. induction ps as [|p ps IH]; cbn; [reflexivity|].
  now rewrite map_app, IH.
Qed.

Lemma separated_fill (bs : list Block) (parts : list jsstring) :
  separated (map fillBlock bs) parts = separated bs parts.
Proof.
  unfold separated. revert parts.
  induction bs as [|b bs IH]; intros parts; cbn [map fold_left];
    [reflexivity|].
  now rewrite blockPieces_fill, IH.
Qed.

Lemma flat_blockPieces_fill (bs : list Block) :
  flat_map blockPieces (map fillBlock bs) = flat_map blockPieces bs.
Proof.
  rewrite flat_map_map. apply flat_map_ext. intros b. apply blockPieces_fill.
Qed.

Lemma noPages_fill (data : VisionAnnotation) :
  noPages (fill data) = noPages data.
Proof.
  unfold noPages, fill; cbn. destruct (pages data) as [l|]; cbn; auto.
  now rewrite length_map.
Qed.

Lemma pages_fill (data : VisionAnnotation) :
  elements (pages (fill data)) = map fillPage (elements (pages data)).
Proof. unfold fill; cbn. now destruct (pages data). Qed.

(** C10.  On every value of the optional-field annotation shape both
    extractors return a string and never throw; an absent [blocks],
    [paragraphs], [words] or [symbols] array at any level reads as an
    empty one (the result is that of the annotation with the absent
    arrays filled in by empty ones); and a symbol without [text] pushes
    nothing but the whitespace of its break. *)
Theorem extractText_total (data : VisionAnnotation) :
  (exists s, HierarchyFirst.extractText data = Ok s)
  /\ (exists s, TextFirst.extractText data = Ok s)
  /\ HierarchyFirst.extractText (fill data) = HierarchyFirst.extractText data
  /\ TextFirst.extractText (fill data) = TextFirst.extractText data
  /\ (forall (p : option Property) (parts : list jsstring),
        let symbol := {| symbol_text := None; property := p |} in
        symbolBody symbol parts = Ok (pushBreak (breakTypeOf symbol) parts)).
Proof.
  split; [eexists; apply HierarchyFirst_extractText_ok|].
  split; [eexists; apply TextFirst_extractText_ok|].
  split; [|split].
  - rewrite !HierarchyFirst_extractText_ok, noPages_fill, pages_fill.
    now rewrite allBlocks_fill, separated_fill.
  - rewrite !TextFirst_extractText_ok, noPages_fill, pages_fill.
    now rewrite allBlocks_fill, flat_blockPieces_fill.
  - reflexivity.
Qed.

(** C6.  When [pages] is absent or an empty list, both extractors
    return the flat [text] unchanged, the empty string when [text] is
    absent too; no piece of the hierarchy is involved. *)
Theorem extractText_without_pages (data : VisionAnnotation)
  (H : pages data = None \/ pages data = Some []) :
  HierarchyFirst.extractText data = Ok (elements (text data))
  /\ TextFirst.extractText data = Ok (elements (text data)).
Proof.
  assert (Hno : noPages data = true).
  { unfold noPages. now destruct H as [-> | ->]. }
  rewrite HierarchyFirst_extractText_ok, TextFirst_extractText_ok, Hno.
  split; [reflexivity|]. now destruct (text data) as [[|c t]|].
Qed.

Lemma extractText_without_pages_witness :
  (pages textOnly = None \/ pages textOnly = Some [])
  /\ HierarchyFirst.extractText textOnly = Ok (lit "A fortiori")
  /\ TextFirst.extractText textOnly = Ok (lit "A fortiori").
Proof.
  split; [left; reflexivity|].
  exact (extractText_without_pages textOnly (or_introl eq_refl)).
Defined.

(** C5.  The walk of a word appends, symbol after symbol, the pieces of
    each symbol, and the pieces of a symbol are its text followed at once
    by the whitespace of its break type: a line feed for LINE_BREAK and
    EOL_SURE_SPACE, one space for SPACE and SURE_SPACE, nothing for any
    other or absent type.  So c, a, t with a SPACE break on the t,
    followed by d, o, g, is reconstructed as "cat dog" by both
    extractors. *)
Theorem symbol_emission (word : Word) (parts : list jsstring) :
  wordBody word parts
  = Ok (parts ++ flat_map symbolPieces (elements (symbols word)))
  /\ (forall symbol : Symbol,
        exists ws,
          whitespaceFor (breakTypeOf symbol) ws
          /\ symbolPieces symbol = textPieces symbol ++ ws
          /\ forall parts,
               symbolBody symbol parts = Ok (parts ++ textPieces symbol ++ ws))
  /\ HierarchyFirst.extractText catDog = Ok (lit "cat dog")
  /\ TextFirst.extractText catDog = Ok (lit "cat dog").
Proof.
  split; [apply wordBody_ok|].
  split; [|split; reflexivity].
  intros symbol.
  destruct (pushBreak_whitespace (breakTypeOf symbol)) as (ws & Hws & Hpush).
  exists ws. split; [exact Hws|].
  split; [apply Hpush|].
  intros parts'. unfold symbolBody.
  now rewrite pushText_app, Hpush, app_assoc.
Qed.

(** After the symbols of a block, a line feed is pushed although the
    text emitted so far, "a\n", already ends in one: the last piece
    pushed is the empty string.  The extra line feed stays in the
    result. *)
Lemma newline_after_newline :
  forOf (orEmpty (paragraphs emptyTail)) paragraphBody []
  = Ok [lit "a"; LF; []]
  /\ endsWithLF (join [lit "a"; LF; []]) = true
  /\ HierarchyFirst.blockBody emptyTail [] = Ok [lit "a"; LF; []; LF]
  /\ HierarchyFirst.extractText emptyTailThenB
     = Ok (lit "a" ++ LF ++ LF ++ lit "b").
Proof. repeat split. Qed.

(** The test of the source, on the last piece pushed. *)
Lemma lastEndsWithLF_last (parts : list jsstring) :
  HierarchyFirst.lastEndsWithLF parts = endsWithLF (last parts []).
Proof.
  unfold HierarchyFirst.lastEndsWithLF.
  destruct (rev parts) as [|p init] eqn:Hrev.
  - apply (f_equal (@rev jsstring)) in Hrev.
    rewrite rev_involutive in Hrev. now subst.
  - apply (f_equal (@rev jsstring)) in Hrev.
    rewrite rev_involutive in Hrev. cbn in Hrev. subst parts.
    now rewrite last_last.
Qed.

Lemma last_default (parts : list jsstring) (d d' : jsstring) :
  parts <> [] -> last parts d = last parts d'.
Proof.
  induction parts as [|p [|q parts] IH]; intros H; try reflexivity.
  - now elim H.
  - apply IH. discriminate.
Qed.

(** C4 (where the code departs from it).  With [emitted] the pieces
    pushed when a block is finished and [piece] the last of them, a line
    feed is pushed unless the text emitted so far ends in a line feed
    and [piece] is not the empty string.  So when [piece] is not empty,
    a line feed is pushed exactly when the text emitted so far does not
    end in one; when [piece] is the empty string, a line feed is pushed
    whatever the text ends in.  Two blocks of one word of one symbol "X"
    without break give "X\nX". *)
Theorem block_closing_newline (block : Block) (parts : list jsstring) :
  let emitted := parts ++ blockPieces block in
  let piece := last emitted [] in
  forOf (orEmpty (paragraphs block)) paragraphBody parts = Ok emitted
  /\ HierarchyFirst.blockBody block parts
     = Ok (if (endsWithLF (join emitted) && negb (streq piece []))%bool
           then emitted else emitted ++ [LF])
  /\ (piece <> [] ->
      HierarchyFirst.blockBody block parts
      = Ok (if endsWithLF (join emitted) then emitted else emitted ++ [LF]))
  /\ (piece = [] ->
      HierarchyFirst.blockBody block parts = Ok (emitted ++ [LF]))
  /\ HierarchyFirst.extractText twoBlocksX = Ok (lit "X" ++ LF ++ lit "X").
Proof.
  cbv zeta. split; [apply paragraphs_ok|].
  assert (Hbody :
    HierarchyFirst.blockBody block parts
    = Ok (if (endsWithLF (join (parts ++ blockPieces block))
              && negb (streq (last (parts ++ blockPieces block) []) []))%bool
          then parts ++ blockPieces block
          else (parts ++ blockPieces block) ++ [LF])).
  { rewrite HierarchyFirst_blockBody_ok. unfold HierarchyFirst.separate.
    rewrite lastEndsWithLF_last.
    destruct (streq (last (parts ++ blockPieces block) []) []) eqn:Hpiece.
    - apply streq_true_iff in Hpiece. rewrite Hpiece, andb_false_r.
      reflexivity.
    - apply streq_false_iff in Hpiece. rewrite andb_true_r.
      assert (Hne : parts ++ blockPieces block <> [])
        by (intros Hnil; rewrite Hnil in Hpiece; now apply Hpiece).
      rewrite <- (lastEndsWithLF_join (parts ++ blockPieces block))
        by (rewrite (last_default LF [] Hne); exact Hpiece).
      rewrite lastEndsWithLF_last.
      now destruct (endsWithLF (last (parts ++ blockPieces block) [])). }
  split; [exact Hbody|]. split; [|split; [|reflexivity]].
  - intros Hpiece. rewrite Hbody.
    apply streq_false_iff in Hpiece. now rewrite Hpiece, andb_true_r.
  - intros Hpiece. rewrite Hbody, Hpiece. cbn [streq negb].
    now rewrite andb_false_r.
Qed.

(** The hierarchy-first extractor strips the leading space as well:
    trimming the end only would leave " X". *)
Lemma leading_whitespace_is_trimmed :
  HierarchyFirst.emit leadingSpace = Ok [SP; lit "X"; LF]
  /\ trimEnd (join [SP; lit "X"; LF]) = SP ++ lit "X"
  /\ HierarchyFirst.extractText leadingSpace = Ok (lit "X").
Proof. repeat split. Qed.

(** C8 (as the code has it).  For a document reconstructed by the
    hierarchy walk, the hierarchy-first [extractText] returns the
    concatenation of the pushed pieces with the run of white space and
    line terminators removed at both ends ([trim]); what lies between is
    kept exactly as emitted. *)
Theorem extractText_trims_both_ends (data : VisionAnnotation)
  (H : noPages data = false) :
  exists parts lead trail result,
    HierarchyFirst.emit data = Ok parts
    /\ HierarchyFirst.extractText data = Ok result
    /\ join parts = lead ++ result ++ trail
    /\ forallb isTrimmable lead = true
    /\ forallb isTrimmable trail = true
    /\ startsClean result = true
    /\ endsClean result = true.
Proof.
  destruct (noPages_false _ H) as (p & ps & Hps).
  pose proof (HierarchyFirst_emit_ok _ Hps) as Hemit.
  destruct (trim_split (join (separated (allBlocks (p :: ps)) [])))
    as (lead & trail & Hsplit & Hlead & Htrail & Hs & He).
  exists (separated (allBlocks (p :: ps)) []), lead, trail,
    (trim (join (separated (allBlocks (p :: ps)) []))).
  split; [exact Hemit|].
  split; [|now repeat split].
  unfold HierarchyFirst.extractText. now rewrite H, Hemit.
Qed.

Lemma extractText_trims_both_ends_witness :
  noPages leadingSpace = false
  /\ exists parts lead trail result,
      HierarchyFirst.emit leadingSpace = Ok parts
      /\ HierarchyFirst.extractText leadingSpace = Ok result
      /\ join parts = lead ++ result ++ trail
      /\ forallb isTrimmable lead = true
      /\ forallb isTrimmable trail = true
      /\ startsClean result = true
      /\ endsClean result = true.
Proof.
  split; [reflexivity|].
  exact (extractText_trims_both_ends leadingSpace eq_refl).
Defined.

Lemma dropLeadingLF_split (s : jsstring) :
  exists n,
    s = repeat 10%N n ++ dropLeadingLF s
    /\ endsWithLF (rev (dropLeadingLF s)) = false.
Proof.
  induction s as [|c s (n & Hs & Hend)]; cbn.
  - now exists 0.
  - destruct (N.eqb c 10) eqn:Hc.
    + apply N.eqb_eq in Hc. subst c. exists (S n).
      split; [cbn; now f_equal | exact Hend].
    + exists 0. split; [reflexivity|].
      unfold endsWithLF. rewrite rev_involutive. exact Hc.
Qed.

(** The text-first extractor, when it walks the hierarchy, removes the
    run of line feeds at the end of the emitted text and nothing else:
    trailing spaces stay, as does everything at the beginning. *)
Lemma TextFirst_strips_line_feeds (data : VisionAnnotation) :
  noPages data = false ->
  text data = None \/ text data = Some [] ->
  exists parts n result,
    TextFirst.emit data = Ok parts
    /\ TextFirst.extractText data = Ok result
    /\ join parts = result ++ repeat 10%N n
    /\ endsWithLF result = false.
Proof.
  intros Hno Htext.
  destruct (noPages_false _ Hno) as (p & ps & Hps).
  pose proof (TextFirst_emit_ok _ Hps) as Hemit.
  set (parts := flat_map blockPieces (allBlocks (p :: ps))) in *.
  destruct (dropLeadingLF_split (rev (join parts))) as (n & Hs & Hend).
  exists parts, n, (stripTrailingLF (join parts)).
  split; [exact Hemit|]. split; [|split].
  - unfold TextFirst.extractText. rewrite Hno, Hemit.
    now destruct Htext as [-> | ->].
  - unfold stripTrailingLF.
    apply (f_equal (@rev N)) in Hs.
    rewrite rev_involutive, rev_app_distr in Hs.
    rewrite Hs at 1. f_equal.
    clear. induction n as [|n IH]; cbn; [reflexivity|].
    rewrite IH. clear. induction n as [|n IH]; cbn; [reflexivity|].
    now rewrite <- IH.
  - exact Hend.
Qed.

(** The text-first extractor pushes no line feed between blocks and
    strips line feeds only, at the end only. *)
Lemma TextFirst_examples :
  TextFirst.extractText twoBlocksX = Ok (lit "XX")
  /\ TextFirst.extractText leadingSpace = Ok (SP ++ lit "X").
Proof. repeat split. Qed.

(* ===================================================================== *)
(** * The confidence audit                                                *)
(* ===================================================================== *)

Section Decided.

Context {A S : Type}.

(** A loop whose body throws exactly on the elements that are not
    [good]. *)
Lemma iterate_decided (body : A -> S -> result S) (f : A -> S -> S)
      (good : A -> bool) :
  (forall x s, body x s = if good x then Ok (f x s) else TypeError) ->
  forall xs s,
    iterate body xs s
    = if forallb good xs then Ok (fold_left (fun s x => f x s) xs s)
      else TypeError.
Proof.
  intros Hbody xs. induction xs as [|x xs IH]; intros s; cbn.
  - reflexivity.
  - rewrite Hbody. destruct (good x); cbn; [apply IH | reflexivity].
Qed.

End Decided.

Lemma countedAll_closed (ws : list Word) (t : Validate.Tally) :
  countedAll ws t
  = {| Validate.wordCount := Validate.wordCount t + List.length ws;
       Validate.cumulativeConfidence :=
         fold_left (fun acc w => (acc + Validate.scoreOf w)%float) ws
                   (Validate.cumulativeConfidence t);
       Validate.flaggedWordCount :=
         Validate.flaggedWordCount t + List.length (flagged ws) |}.
Proof.
  unfold countedAll, flagged. revert t.
  induction ws as [|w ws IH]; intros [n c k]; cbn.
  - now rewrite !Nat.add_0_r.
  - rewrite IH; cbn. destruct (Validate.scoreOf w <? 0.8)%float; cbn;
      f_equal; lia.
Qed.

Lemma countedAll_start (ws : list Word) :
  countedAll ws Validate.start = tallyOf ws.
Proof. now rewrite countedAll_closed. Qed.

Lemma paragraphCallback_decided (para : Paragraph) (t : Validate.Tally) :
  Validate.paragraphCallback para t
  = if completeParagraph para
    then Ok (countedAll (elements (words para)) t)
    else TypeError.
Proof.
  unfold Validate.paragraphCallback, completeParagraph, countedAll.
  destruct (words para) as [ws|]; cbn; [|reflexivity].
  now apply iterate_ok.
Qed.

Lemma blockCallback_decided (b : Block) (t : Validate.Tally) :
  Validate.blockCallback b t
  = if completeBlock b then Ok (countedAll (wordsOfBlock b) t)
    else TypeError.
Proof.
  unfold Validate.blockCallback, completeBlock, wordsOfBlock, countedAll.
  destruct (paragraphs b) as [l|]; cbn; [|reflexivity].
  rewrite (iterate_decided _
             (fun para t => countedAll (elements (words para)) t)
             completeParagraph).
  - unfold countedAll. now rewrite fold_left_flat_map.
  - apply paragraphCallback_decided.
Qed.

Lemma pageCallback_decided (p : Page) (t : Validate.Tally) :
  Validate.pageCallback p t
  = if completePage p then Ok (countedAll (wordsOfPage p) t)
    else TypeError.
Proof.
  unfold Validate.pageCallback, completePage, wordsOfPage, countedAll.
  destruct (blocks p) as [l|]; cbn; [|reflexivity].
  rewrite (iterate_decided _ (fun b t => countedAll (wordsOfBlock b) t)
             completeBlock).
  - unfold countedAll. now rewrite fold_left_flat_map.
  - apply blockCallback_decided.
Qed.

(** The traversal succeeds exactly on the annotations in which every
    page has its [blocks], every block its [paragraphs] and every
    paragraph its [words]; any absent array throws. *)
Lemma traverse_decided (data : VisionAnnotation) (ps : list Page) :
  pages data = Some ps ->
  Validate.traverse data
  = if complete data then Ok (tallyOf (allWords ps)) else TypeError.
Proof.
  intros Hps. unfold Validate.traverse, complete. rewrite Hps; cbn.
  rewrite (iterate_decided _ (fun p t => countedAll (wordsOfPage p) t)
             completePage).
  - destruct (forallb completePage ps); [|reflexivity].
    rewrite <- countedAll_start. unfold countedAll, allWords.
    now rewrite fold_left_flat_map.
  - apply pageCallback_decided.
Qed.

Lemma firstPageBlockCount_complete (data : VisionAnnotation) (p : Page)
      (ps : list Page) :
  pages data = Some (p :: ps) -> complete data = true ->
  Validate.firstPageBlockCount data = Ok (List.length (elements (blocks p))).
Proof.
  intros Hps Hc. unfold Validate.firstPageBlockCount, complete in *.
  rewrite Hps in *; cbn in Hc. apply andb_true_iff in Hc as [Hp _].
  unfold completePage in Hp. now destruct (blocks p).
Qed.

Lemma audit_absent_array_throws :
  Validate.auditJsonFile (lit "05.json") pageWithoutBlocks = TypeError.
Proof. reflexivity. Qed.

(** What the traversal adds for a word is what the specification
    counts for it. *)
Lemma scoreOf_contribution (w : Word) : Validate.scoreOf w = contribution w.
Proof.
  unfold Validate.scoreOf, contribution, truthyNumber.
  destruct (confidence w) as [c|]; [|reflexivity].
  now destruct (PrimFloat.eqb c 0 || PrimFloat.is_nan c)%bool.
Qed.

Lemma sumScores_contribution (ws : list Word) (acc : float) :
  fold_left (fun acc w => (acc + Validate.scoreOf w)%float) ws acc
  = fold_left (fun acc w => (acc + contribution w)%float) ws acc.
Proof.
  revert acc. induction ws as [|w ws IH]; intros acc; [reflexivity|].
  cbn [fold_left]. now rewrite scoreOf_contribution, IH.
Qed.

Lemma flagged_contribution (ws : list Word) :
  filter (fun w => (Validate.scoreOf w <? 0.8)%float) ws
  = filter (fun w => (contribution w <? 0.8)%float) ws.
Proof.
  apply filter_ext. intros w. now rewrite scoreOf_contribution.
Qed.

(** A page without its [blocks] array is a page of a document with a
    non-empty [pages] list, which the extractor reads as an empty page;
    the audit throws on it and gives no statistics. *)
Lemma statistics_need_the_arrays :
  pages pageWithoutBlocks = Some [ {| blocks := None |} ]
  /\ Validate.traverse pageWithoutBlocks = TypeError
  /\ Validate.auditJsonFile (lit "05.json") pageWithoutBlocks = TypeError
  /\ HierarchyFirst.extractText pageWithoutBlocks = Ok [].
Proof. repeat split. Qed.

(** C2 (as the code has it).  On a document with a non-empty [pages]
    list whose pages, blocks and paragraphs carry their arrays, the
    traversal ends with [wordCount] the number of words of all pages,
    every word once; [cumulativeConfidence] the binary64 sum, in
    document order, of what the words contribute, a word without
    confidence contributing 0.0 and counting; [flaggedWordCount] the
    number of words contributing strictly less than 0.8; the mean is
    that sum divided by that count; and the block count is the length
    of the first page's [blocks], whatever the other pages hold.  A
    word contributes its confidence, except that a confidence of zero
    or one that is not a number contributes 0.0. *)
Theorem audit_statistics (data : VisionAnnotation) (p : Page)
  (ps : list Page)
  (Hpages : pages data = Some (p :: ps))
  (Hcomplete : complete data = true) :
  let ws := allWords (p :: ps) in
  (exists t,
    Validate.traverse data = Ok t
    /\ Validate.wordCount t = List.length ws
    /\ Validate.cumulativeConfidence t
       = fold_left (fun acc w => (acc + contribution w)%float) ws 0%float
    /\ Validate.flaggedWordCount t
       = List.length (filter (fun w => (contribution w <? 0.8)%float) ws)
    /\ Validate.meanConfidence t
       = (Validate.cumulativeConfidence t / ofNat (List.length ws))%float
    /\ Validate.firstPageBlockCount data
       = Ok (List.length (elements (blocks p))))
  /\ (forall w, confidence w = None -> contribution w = 0%float)
  /\ (forall w c, confidence w = Some c ->
        (PrimFloat.eqb c 0 || PrimFloat.is_nan c)%bool = false ->
        contribution w = c)
  /\ (forall w c, confidence w = Some c ->
        (PrimFloat.eqb c 0 || PrimFloat.is_nan c)%bool = true ->
        contribution w = 0%float).
Proof.
  cbv zeta. split.
  - exists (tallyOf (allWords (p :: ps))).
    split. { rewrite (traverse_decided _ Hpages). now rewrite Hcomplete. }
    split; [reflexivity|].
    split; [apply sumScores_contribution|].
    split; [cbn; unfold flagged; now rewrite flagged_contribution|].
    split; [reflexivity|].
    now apply firstPageBlockCount_complete with ps.
  - split; [|split].
    + intros w Hw. unfold contribution. now rewrite Hw.
    + intros w c Hw Hc. unfold contribution. now rewrite Hw, Hc.
    + intros w c Hw Hc. unfold contribution. now rewrite Hw, Hc.
Qed.

Lemma audit_statistics_witness :
  pages twoPages
  = Some ({| blocks := Some [blockOf [scored 1]] |}
          :: [ {| blocks := Some [blockOf [scored 0.5];
                                  blockOf [scored 0.9]] |} ])
  /\ complete twoPages = true
  /\ exists t,
      Validate.traverse twoPages = Ok t
      /\ Validate.wordCount t = 3
      /\ Validate.cumulativeConfidence t = (0 + 1 + 0.5 + 0.9)%float
      /\ Validate.flaggedWordCount t = 1
      /\ Validate.meanConfidence t
         = (Validate.cumulativeConfidence t / ofNat 3)%float
      /\ Validate.firstPageBlockCount twoPages = Ok 1.
Proof.
  split; [reflexivity|]. split; [reflexivity|].
  exact (proj1 (@audit_statistics twoPages _ _ eq_refl eq_refl)).
Defined.

(** The three words of confidence 1.0, 0.5 and 0.9. *)
Lemma audit_three_words :
  Validate.traverse threeWords
  = Ok {| Validate.wordCount := 3;
          Validate.cumulativeConfidence := 2.4%float;
          Validate.flaggedWordCount := 1 |}
  /\ measuredMean threeWords = Ok 0.79999999999999993%float
  /\ Validate.auditJsonFile (lit "05.json") threeWords
     = Ok [lit "FILE AUDIT: 05.json";
           lit "- Avg Confidence: 0.8000";
           lit "- Flagged Words: 1 (Under 0.80)";
           lit "- Layout Blocks: 1";
           lit "---"].
Proof. repeat split. Qed.

Lemma auditJsonFile_complete (fileName : jsstring) (data : VisionAnnotation)
      (p : Page) (ps : list Page) :
  pages data = Some (p :: ps) -> complete data = true ->
  Validate.auditJsonFile fileName data
  = Ok (Validate.printAudit fileName
          (toFixed (Validate.meanConfidence (tallyOf (allWords (p :: ps)))) 4)
          (List.length (flagged (allWords (p :: ps))))
          (List.length (elements (blocks p)))
          (text data)).
Proof.
  intros Hps Hc. unfold Validate.auditJsonFile.
  assert (Hno : noPages data = false) by (unfold noPages; now rewrite Hps).
  rewrite Hno, (traverse_decided _ Hps), Hc; cbn [bind].
  now rewrite (firstPageBlockCount_complete _ Hps Hc).
Qed.

(** Without [pages] the audit prints one line and returns. *)
Lemma audit_without_pages :
  Validate.auditJsonFile (lit "05.json") textOnly
  = Ok [lit "[!] CRITICAL: 05.json contains no structural 'pages' data."].
Proof. reflexivity. Qed.

(** A page without blocks: no error is signalled, the mean is NaN and
    is printed as such. *)
Lemma zero_words_prints_NaN :
  measuredMean onePageNoBlocks = Ok nan
  /\ Validate.auditJsonFile (lit "05.json") onePageNoBlocks
     = Ok [lit "FILE AUDIT: 05.json";
           lit "- Avg Confidence: NaN";
           lit "- Flagged Words: 0 (Under 0.80)";
           lit "- Layout Blocks: 0";
           lit "---"].
Proof. split; reflexivity. Qed.

(** C3 (as the code has it).  On a document that has structural pages,
    with their arrays, but no word at all, the audit signals no error:
    the traversal ends with the three variables at zero, the mean is the
    binary64 quotient 0/0, which is NaN, and the report is printed with
    "NaN" as the average, zero flagged words and the block count of the
    first page. *)
Theorem zero_words_mean_is_NaN (fileName : jsstring)
  (data : VisionAnnotation) (p : Page) (ps : list Page)
  (Hpages : pages data = Some (p :: ps))
  (Hcomplete : complete data = true)
  (Hwords : allWords (p :: ps) = []) :
  Validate.traverse data = Ok Validate.start
  /\ measuredMean data = Ok nan
  /\ PrimFloat.is_nan (Validate.meanConfidence Validate.start) = true
  /\ Validate.auditJsonFile fileName data
     = Ok (Validate.printAudit fileName (lit "NaN") 0
             (List.length (elements (blocks p))) (text data)).
Proof.
  assert (Ht : Validate.traverse data = Ok Validate.start).
  { rewrite (traverse_decided _ Hpages), Hcomplete, Hwords. reflexivity. }
  split; [exact Ht|].
  split; [unfold measuredMean; now rewrite Ht|].
  split; [reflexivity|].
  rewrite (auditJsonFile_complete _ _ Hpages Hcomplete), Hwords.
  reflexivity.
Qed.

Lemma zero_words_mean_is_NaN_witness :
  pages onePageNoBlocks = Some [ {| blocks := Some [] |} ]
  /\ complete onePageNoBlocks = true
  /\ allWords [ {| blocks := Some [] |} ] = []
  /\ Validate.traverse onePageNoBlocks = Ok Validate.start
  /\ measuredMean onePageNoBlocks = Ok nan
  /\ PrimFloat.is_nan (Validate.meanConfidence Validate.start) = true
  /\ Validate.auditJsonFile (lit "05.json") onePageNoBlocks
     = Ok (Validate.printAudit (lit "05.json") (lit "NaN") 0 0 None).
Proof.
  split; [reflexivity|]. split; [reflexivity|]. split; [reflexivity|].
  exact (@zero_words_mean_is_NaN (lit "05.json") onePageNoBlocks _ _
           eq_refl eq_refl eq_refl).
Defined.

(** A mean of 0.90 and a mean of 0.90001 lie on either side of the pass
    mark of the specification, yet [auditJsonFile] does exactly the same
    on both: it returns nothing and prints the same lines.  Nothing it
    produces is the [passed] flag.  (0.9001 is printed as such.) *)
Lemma audit_has_no_pass_flag :
  measuredMean (oneWord 0.90) = Ok 0.90%float
  /\ measuredMean (oneWord 0.90001) = Ok 0.90001%float
  /\ specPassed 0.90 = false
  /\ specPassed 0.90001 = true
  /\ Validate.auditJsonFile (lit "05.json") (oneWord 0.90)
     = Ok [lit "FILE AUDIT: 05.json";
           lit "- Avg Confidence: 0.9000";
           lit "- Flagged Words: 0 (Under 0.80)";
           lit "- Layout Blocks: 1";
           lit "---"]
  /\ Validate.auditJsonFile (lit "05.json") (oneWord 0.90001)
     = Validate.auditJsonFile (lit "05.json") (oneWord 0.90)
  /\ Validate.auditJsonFile (lit "05.json") (oneWord 0.9001)
     = Ok [lit "FILE AUDIT: 05.json";
           lit "- Avg Confidence: 0.9001";
           lit "- Flagged Words: 0 (Under 0.80)";
           lit "- Layout Blocks: 1";
           lit "---"].
Proof. repeat split. Qed.

(** C7 (as the code has it).  [auditJsonFile] returns no record: on a
    document with a non-empty [pages] list and its arrays it prints the
    file name, the mean confidence rounded to four decimals, the number
    of flagged words, the block count of the first page, a sample of
    [text] when there is one, and a closing rule.  The printed lines
    depend on the mean through its four-decimal rendering only, and no
    pass mark is derived from it: a mean of 0.90 is printed as 0.9000
    and a mean of 0.9001 as 0.9001. *)
Theorem audit_prints_report (fileName : jsstring) (data : VisionAnnotation)
  (p : Page) (ps : list Page)
  (Hpages : pages data = Some (p :: ps))
  (Hcomplete : complete data = true) :
  let ws := allWords (p :: ps) in
  Validate.auditJsonFile fileName data
  = Ok ([lit "FILE AUDIT: " ++ fileName;
         lit "- Avg Confidence: "
           ++ toFixed (sumScores ws / ofNat (List.length ws))%float 4;
         lit "- Flagged Words: " ++ digits (N.of_nat (List.length (flagged ws)))
           ++ lit " (Under 0.80)";
         lit "- Layout Blocks: "
           ++ digits (N.of_nat (List.length (elements (blocks p))))]
        ++ match text data with
           | Some (c :: t) =>
               [lit "- Content Sample: "
                  ++ map (fun c => if N.eqb c 10 then 32%N else c)
                         (firstn 80 (c :: t))
                  ++ lit "..."]
           | _ => []
           end
        ++ [lit "---"])
  /\ Validate.auditJsonFile fileName (oneWord 0.90)
     = Ok [lit "FILE AUDIT: " ++ fileName;
           lit "- Avg Confidence: 0.9000";
           lit "- Flagged Words: 0 (Under 0.80)";
           lit "- Layout Blocks: 1";
           lit "---"]
  /\ Validate.auditJsonFile fileName (oneWord 0.9001)
     = Ok [lit "FILE AUDIT: " ++ fileName;
           lit "- Avg Confidence: 0.9001";
           lit "- Flagged Words: 0 (Under 0.80)";
           lit "- Layout Blocks: 1";
           lit "---"].
Proof.
  cbv zeta. split; [|split; reflexivity].
  now rewrite (auditJsonFile_complete _ _ Hpages Hcomplete).
Qed.

Lemma audit_prints_report_witness :
  pages twoPages
  = Some ({| blocks := Some [blockOf [scored 1]] |}
          :: [ {| blocks := Some [blockOf [scored 0.5];
                                  blockOf [scored 0.9]] |} ])
  /\ complete twoPages = true
  /\ Validate.auditJsonFile (lit "05.json") twoPages
     = Ok [lit "FILE AUDIT: 05.json";
           lit "- Avg Confidence: 0.8000";
           lit "- Flagged Words: 1 (Under 0.80)";
           lit "- Layout Blocks: 1";
           lit "- Content Sample: A fortiori...";
           lit "---"].
Proof.
  split; [reflexivity|]. split; [reflexivity|].
  exact (proj1 (@audit_prints_report (lit "05.json") twoPages _ _
                  eq_refl eq_refl)).
Defined.

(* ===================================================================== *)
(** * File names: scans, outputs and the filters                          *)
(* ===================================================================== *)

Lemma takeWhile_all (f : N -> bool) (s : jsstring) :
  forallb f s = true -> takeWhile f s = s.
Proof.
  induction s as [|c s IH]; cbn; [reflexivity|].
  intros H. apply andb_true_iff in H as [-> Hs]. now rewrite IH.
Qed.

Lemma dropWhile_all (f : N -> bool) (s : jsstring) :
  forallb f s = true -> dropWhile f s = [].
Proof.
  induction s as [|c s IH]; cbn; [reflexivity|].
  intros H. apply andb_true_iff in H as [-> Hs]. now apply IH.
Qed.

Lemma dropWhile_none (f : N -> bool) (s : jsstring) :
  forallb (fun c => negb (f c)) s = true -> dropWhile f s = s.
Proof.
  destruct s as [|c s]; cbn; [reflexivity|].
  intros H. apply andb_true_iff in H as [Hc _].
  apply negb_true_iff in Hc. now rewrite Hc.
Qed.

Lemma takeWhile_app_stop (f : N -> bool) (a : jsstring) (c : N)
      (b : jsstring) :
  forallb f a = true -> f c = false ->
  takeWhile f (a ++ c :: b) = a /\ dropWhile f (a ++ c :: b) = c :: b.
Proof.
  intros Ha Hc. induction a as [|x a IH]; cbn.
  - now rewrite Hc.
  - cbn in Ha. apply andb_true_iff in Ha as [-> Ha].
    destruct (IH Ha) as [-> ->]. now split.
Qed.

Lemma takeWhile_dropWhile (f : N -> bool) (s : jsstring) :
  takeWhile f s ++ dropWhile f s = s
  /\ forallb f (takeWhile f s) = true
  /\ match dropWhile f s with c :: _ => f c = false | [] => True end.
Proof.
  induction s as [|c s (Happ & Hall & Hhead)]; cbn; [auto|].
  destruct (f c) eqn:Hc; cbn.
  - rewrite Happ, Hc, Hall. auto.
  - rewrite Hc. auto.
Qed.

Lemma forallb_rev {A} (f : A -> bool) (l : list A) :
  forallb f (rev l) = forallb f l.
Proof.
  induction l as [|x l IH]; cbn; [reflexivity|].
  rewrite forallb_app, IH. cbn. rewrite andb_true_r. apply andb_comm.
Qed.

Lemma lastPortion_plain (name : jsstring) :
  noSlash name = true -> lastPortion name = name.
Proof.
  intros H. unfold lastPortion.
  assert (Hr : forallb (fun c => negb (isSlash c)) (rev name) = true)
    by now rewrite forallb_rev.
  rewrite (dropWhile_none isSlash _ Hr), (takeWhile_all _ _ Hr).
  apply rev_involutive.
Qed.

Lemma streq_refl (s : jsstring) : streq s s = true.
Proof. now apply streq_true_iff. Qed.

(** A portion with a stem, a dot and a dot-free end splits there. *)
Lemma splitPortion_stem (stem e : jsstring) :
  stem <> [] -> e <> [] -> noDot e = true ->
  splitPortion (stem ++ 46%N :: e) = (stem, 46%N :: e).
Proof.
  intros Hstem He Hdot. unfold splitPortion.
  replace (rev (stem ++ 46%N :: e)) with (rev e ++ 46%N :: rev stem)
    by (rewrite rev_app_distr; cbn; now rewrite <- app_assoc).
  assert (Hr : forallb (fun c => negb (isDot c)) (rev e) = true)
    by (rewrite forallb_rev; exact Hdot).
  destruct (takeWhile_app_stop (fun c => negb (isDot c)) (rev e) 46%N
              (rev stem) Hr eq_refl) as [-> ->].
  destruct (rev stem) as [|x r] eqn:Hrev.
  { apply (f_equal (@rev N)) in Hrev. rewrite rev_involutive in Hrev.
    now subst. }
  rewrite <- Hrev, !rev_involutive.
  replace (streq (stem ++ 46%N :: e) (lit "..")) with false; [reflexivity|].
  symmetry. apply streq_false_iff. intros Heq.
  apply (f_equal (@rev N)) in Heq. rewrite rev_app_distr in Heq.
  cbn in Heq. destruct (rev e) as [|y re] eqn:He'.
  - apply (f_equal (@rev N)) in He'. rewrite rev_involutive in He'.
    now subst.
  - cbn in Hr, Heq. injection Heq as -> _. discriminate.
Qed.

(** Conversely, an extension is found only where such a split exists. *)
Lemma splitPortion_ext (portion : jsstring) :
  snd (splitPortion portion) <> [] ->
  exists stem e,
    portion = stem ++ 46%N :: e /\ stem <> [] /\ noDot e = true
    /\ splitPortion portion = (stem, 46%N :: e).
Proof.
  unfold splitPortion.
  destruct (takeWhile_dropWhile (fun c => negb (isDot c)) (rev portion))
    as (Happ & Hall & Hhead).
  destruct (dropWhile _ (rev portion)) as [|d [|b before]] eqn:Hdrop;
    cbn [snd]; try (intros H; now elim H).
  destruct (streq portion (lit "..")); cbn [snd];
    [intros H; now elim H|].
  intros _. apply negb_false_iff, N.eqb_eq in Hhead. subst d.
  set (after := takeWhile _ (rev portion)) in *.
  exists (rev (b :: before)), (rev after).
  assert (Hp : portion = rev (b :: before) ++ 46%N :: rev after).
  { apply (f_equal (@rev N)) in Happ. rewrite rev_involutive in Happ.
    rewrite <- Happ, rev_app_distr. cbn. now rewrite <- !app_assoc. }
  split; [exact Hp|]. split.
  - cbn. intros H. apply app_eq_nil in H as [_ H]. discriminate.
  - split; [unfold noDot; now rewrite forallb_rev | reflexivity].
Qed.

Lemma lowerUnit_dot (c : N) : isDot (lowerUnit c) = isDot c.
Proof.
  unfold lowerUnit, isDot.
  destruct (N.leb 65 c && N.leb c 90)%bool eqn:H; [|reflexivity].
  apply andb_true_iff in H as [H1 H2].
  apply N.leb_le in H1, H2.
  transitivity false; [|symmetry]; apply N.eqb_neq; lia.
Qed.

Lemma noDot_toLowerCase (s : jsstring) : noDot (toLowerCase s) = noDot s.
Proof.
  unfold noDot, toLowerCase. induction s as [|c s IH]; cbn; [reflexivity|].
  now rewrite lowerUnit_dot, IH.
Qed.

Lemma includes_In (xs : list jsstring) (x : jsstring) :
  includes xs x = true <-> In x xs.
Proof.
  unfold includes. rewrite existsb_exists. split.
  - intros (y & Hy & Heq). apply streq_true_iff in Heq. now subst.
  - intros H. exists x. split; [exact H | apply streq_refl].
Qed.

Lemma imageExtension_shape (e : jsstring) :
  In (toLowerCase e) imageExtensions -> e <> [] /\ noDot e = true.
Proof.
  intros H. split.
  - intros ->. cbn in H. intuition discriminate.
  - rewrite <- noDot_toLowerCase.
    cbn in H. destruct H as [<-|[<-|[<-|[<-|[]]]]]; reflexivity.
Qed.

Lemma valid_image_extension (e : jsstring) :
  includes validExtensions (toLowerCase (46%N :: e)) = true
  <-> In (toLowerCase e) imageExtensions.
Proof.
  rewrite includes_In.
  change (toLowerCase (46%N :: e)) with (46%N :: toLowerCase e).
  change validExtensions with (map (cons 46%N) imageExtensions).
  rewrite in_map_iff. split.
  - now intros (x & [= <-] & H).
  - intros H. now exists (toLowerCase e).
Qed.

(** The names the filter of [getScanFiles] lets through. *)
Lemma isSupported_iff (name : jsstring) :
  noSlash name = true ->
  isSupported name = true
  <-> exists stem e,
        name = stem ++ 46%N :: e /\ stem <> []
        /\ In (toLowerCase e) imageExtensions.
Proof.
  intros Hname. unfold isSupported, extname.
  rewrite (lastPortion_plain _ Hname). split.
  - intros H.
    destruct (splitPortion_ext name) as (stem & e & Hp & Hstem & He & Hsplit).
    { intros Hnil. rewrite Hnil in H. discriminate. }
    exists stem, e. rewrite Hsplit in H. cbn [snd] in H.
    now apply valid_image_extension in H.
  - intros (stem & e & -> & Hstem & He).
    destruct (imageExtension_shape _ He) as [Hne Hdot].
    rewrite (splitPortion_stem Hstem Hne Hdot). cbn [snd].
    now apply valid_image_extension.
Qed.

(** X1.  [getScanFiles] returns the directory entries that consist of a
    non-empty stem, a dot and one of jpg, jpeg, png, tiff in any mix of
    upper and lower case, and no others; an entry whose only dot is its
    first character (".jpg") is left out, as is one with anything after
    the image extension.  When the directory cannot be read the result
    is empty. *)
Theorem getScanFiles_accepts (entries : list jsstring) (name : jsstring)
  (Hname : noSlash name = true) :
  (In name (getScanFiles (Some entries))
   <-> In name entries
       /\ exists stem e,
            name = stem ++ 46%N :: e /\ stem <> []
            /\ In (toLowerCase e) imageExtensions)
  /\ getScanFiles None = [].
Proof.
  split; [|reflexivity].
  unfold getScanFiles. rewrite filter_In.
  now rewrite (isSupported_iff _ Hname).
Qed.

Lemma getScanFiles_accepts_witness :
  noSlash (lit "Page_01.JPG") = true
  /\ (In (lit "Page_01.JPG")
         (getScanFiles (Some [lit ".jpg"; lit "Page_01.JPG"; lit "a.jpg.bak"]))
      <-> In (lit "Page_01.JPG") [lit ".jpg"; lit "Page_01.JPG"; lit "a.jpg.bak"]
          /\ exists stem e,
               lit "Page_01.JPG" = stem ++ 46%N :: e /\ stem <> []
               /\ In (toLowerCase e) imageExtensions).
Proof.
  split; [reflexivity|].
  exact (proj1 (@getScanFiles_accepts
                  [lit ".jpg"; lit "Page_01.JPG"; lit "a.jpg.bak"]
                  (lit "Page_01.JPG") eq_refl)).
Defined.

Lemma lowerUnit_slash (c : N) : isSlash (lowerUnit c) = isSlash c.
Proof.
  unfold lowerUnit, isSlash.
  destruct (N.leb 65 c && N.leb c 90)%bool eqn:H; [|reflexivity].
  apply andb_true_iff in H as [H1 H2].
  apply N.leb_le in H1, H2.
  transitivity false; [|symmetry]; apply N.eqb_neq; lia.
Qed.

Lemma noSlash_toLowerCase (s : jsstring) : noSlash (toLowerCase s) = noSlash s.
Proof.
  unfold noSlash, toLowerCase. induction s as [|c s IH]; cbn; [reflexivity|].
  now rewrite lowerUnit_slash, IH.
Qed.

Lemma imageExtension_noSlash (e : jsstring) :
  In (toLowerCase e) imageExtensions -> noSlash e = true.
Proof.
  intros H. rewrite <- noSlash_toLowerCase.
  cbn in H. destruct H as [<-|[<-|[<-|[<-|[]]]]]; reflexivity.
Qed.

Lemma noSlash_scan (stem e : jsstring) :
  noSlash stem = true -> In (toLowerCase e) imageExtensions ->
  noSlash (stem ++ 46%N :: e) = true.
Proof.
  intros Hs He. unfold noSlash in *. rewrite forallb_app, Hs. cbn.
  now apply imageExtension_noSlash.
Qed.

Lemma parseName_scan (stem e : jsstring) :
  stem <> [] -> noSlash stem = true ->
  In (toLowerCase e) imageExtensions ->
  parseName (stem ++ 46%N :: e) = stem.
Proof.
  intros Hstem Hs He. unfold parseName. cbv zeta.
  assert (Hroot : afterRoot (stem ++ 46%N :: e) = false).
  { destruct stem as [|c stem]; [now elim Hstem|].
    unfold noSlash in Hs. cbn [forallb] in Hs.
    apply andb_true_iff in Hs as [Hc _].
    cbn [app afterRoot]. now destruct (isSlash c). }
  rewrite Hroot. cbn [andb].
  rewrite (lastPortion_plain _ (noSlash_scan _ _ Hs He)).
  destruct (imageExtension_shape _ He) as [Hne Hdot].
  now rewrite (splitPortion_stem Hstem Hne Hdot).
Qed.

Lemma endsWith_app (a b : jsstring) : endsWith (a ++ b) b = true.
Proof.
  unfold endsWith. rewrite length_app, Nat.add_sub, skipn_app.
  rewrite skipn_all, Nat.sub_diag. cbn. apply streq_refl.
Qed.

Lemma saveOcrResult_name_aux (stem e : jsstring) :
  stem <> [] -> noSlash stem = true ->
  In (toLowerCase e) imageExtensions ->
  isSupported (stem ++ 46%N :: e) = true
  /\ outputName (stem ++ 46%N :: e) = stem ++ lit ".json".
Proof.
  intros Hstem Hslash He. split.
  - apply isSupported_iff; [now apply noSlash_scan|]. now exists stem, e.
  - unfold outputName. now rewrite parseName_scan.
Qed.

(** X2.  For a scan that [getScanFiles] lets through, [saveOcrResult]
    writes under the stem of the scan followed by ".json"; and whatever
    the file name, the name it writes under ends in ".json", so that the
    filter of the audit's [main] picks the file up. *)
Theorem saveOcrResult_name (stem e : jsstring)
  (Hstem : stem <> []) (Hslash : noSlash stem = true)
  (He : In (toLowerCase e) imageExtensions) :
  isSupported (stem ++ 46%N :: e) = true
  /\ outputName (stem ++ 46%N :: e) = stem ++ lit ".json"
  /\ forall filename, Cli.isJson (outputName filename) = true.
Proof.
  destruct (@saveOcrResult_name_aux stem e Hstem Hslash He) as (S1 & N1).
  split; [exact S1|]. split; [exact N1|].
  intros filename. apply endsWith_app.
Qed.

Lemma saveOcrResult_name_witness :
  lit "page_01" <> [] /\ noSlash (lit "page_01") = true
  /\ In (toLowerCase (lit "TIFF")) imageExtensions
  /\ isSupported (lit "page_01.TIFF") = true
  /\ outputName (lit "page_01.TIFF") = lit "page_01.json"
  /\ forall filename, Cli.isJson (outputName filename) = true.
Proof.
  split; [discriminate|]. split; [reflexivity|].
  split; [cbn; tauto|].
  refine (@saveOcrResult_name (lit "page_01") (lit "TIFF") _ eq_refl _).
  - discriminate.
  - cbn; tauto.
Defined.

(** X3.  Two scans with the same stem and different image extensions
    are both processed and share one output file: after both are saved
    the file holds the result of the later one, the earlier result is
    gone, and no other file of the directory is touched. *)
Theorem same_stem_overwrites (D : Type) (stem e1 e2 : jsstring)
  (d1 d2 : D) (output : directory D)
  (Hstem : stem <> []) (Hslash : noSlash stem = true)
  (He1 : In (toLowerCase e1) imageExtensions)
  (He2 : In (toLowerCase e2) imageExtensions) :
  let scan1 := stem ++ 46%N :: e1 in
  let scan2 := stem ++ 46%N :: e2 in
  let after := saveOcrResult scan2 d2 (saveOcrResult scan1 d1 output) in
  isSupported scan1 = true /\ isSupported scan2 = true
  /\ outputName scan1 = outputName scan2
  /\ after (stem ++ lit ".json") = Some d2
  /\ forall name, name <> stem ++ lit ".json" -> after name = output name.
Proof.
  cbv zeta.
  destruct (@saveOcrResult_name_aux stem e1 Hstem Hslash He1) as (S1 & N1).
  destruct (@saveOcrResult_name_aux stem e2 Hstem Hslash He2) as (S2 & N2).
  split; [exact S1|]. split; [exact S2|]. split; [congruence|].
  unfold saveOcrResult. rewrite N1, N2. split.
  - now rewrite streq_refl.
  - intros name Hname. apply streq_false_iff in Hname. now rewrite Hname.
Qed.

Lemma same_stem_overwrites_witness :
  lit "05" <> [] /\ noSlash (lit "05") = true
  /\ In (toLowerCase (lit "jpg")) imageExtensions
  /\ In (toLowerCase (lit "PNG")) imageExtensions
  /\ isSupported (lit "05.jpg") = true /\ isSupported (lit "05.PNG") = true
  /\ outputName (lit "05.jpg") = outputName (lit "05.PNG")
  /\ saveOcrResult (lit "05.PNG") 2
       (saveOcrResult (lit "05.jpg") 1 (fun _ => None)) (lit "05.json")
     = Some 2
  /\ forall name,
       name <> lit "05.json" ->
       saveOcrResult (lit "05.PNG") 2
         (saveOcrResult (lit "05.jpg") 1 (fun _ => None)) name
       = None.
Proof.
  split; [discriminate|]. split; [reflexivity|].
  split; [cbn; tauto|]. split; [cbn; tauto|].
  refine (@same_stem_overwrites nat (lit "05") (lit "jpg") (lit "PNG") 1 2
            (fun _ => None) _ eq_refl _ _).
  - discriminate.
  - cbn; tauto.
  - cbn; tauto.
Defined.

Lemma endsWith_app_long (a b suffix : jsstring) :
  List.length suffix <= List.length b ->
  endsWith (a ++ b) suffix = endsWith b suffix.
Proof.
  intros H. unfold endsWith. rewrite length_app, skipn_app.
  rewrite skipn_all2 by lia. cbn.
  now replace (List.length a + List.length b - List.length suffix
               - List.length a)
    with (List.length b - List.length suffix) by lia.
Qed.

(** X4.  Among the scans the pipeline processes, the header check of
    [sanity-check.ts] looks at those with the extension jpg only: a
    jpeg, png or tiff scan is sent to the OCR service without ever being
    inspected. *)
Theorem sanity_check_covers_jpg_only (stem e : jsstring)
  (Hstem : stem <> []) (Hslash : noSlash stem = true)
  (He : In (toLowerCase e) imageExtensions) :
  isSupported (stem ++ 46%N :: e) = true
  /\ (SanityCheck.isJpg (stem ++ 46%N :: e) = true
      <-> toLowerCase e = lit "jpg").
Proof.
  split; [exact (proj1 (@saveOcrResult_name_aux stem e Hstem Hslash He))|].
  unfold SanityCheck.isJpg.
  replace (toLowerCase (stem ++ 46%N :: e))
    with (toLowerCase stem ++ 46%N :: toLowerCase e)
    by (unfold toLowerCase; now rewrite map_app).
  cbn in He. destruct He as [H|[H|[H|[H|[]]]]]; rewrite <- H;
    rewrite endsWith_app_long by (cbn; lia); cbn; split; congruence.
Qed.

Lemma sanity_check_covers_jpg_only_witness :
  lit "05" <> [] /\ noSlash (lit "05") = true
  /\ In (toLowerCase (lit "jpeg")) imageExtensions
  /\ isSupported (lit "05.jpeg") = true
  /\ (SanityCheck.isJpg (lit "05.jpeg") = true
      <-> toLowerCase (lit "jpeg") = lit "jpg").
Proof.
  split; [discriminate|]. split; [reflexivity|]. split; [cbn; tauto|].
  refine (@sanity_check_covers_jpg_only (lit "05") (lit "jpeg") _ eq_refl _).
  - discriminate.
  - cbn; tauto.
Defined.

Lemma hexByte_ff (b : Byte.byte) :
  streq (SanityCheck.hexByte (Byte.to_N b)) (lit "ff") = Byte.eqb b Byte.xff.
Proof. destruct b; reflexivity. Qed.

Lemma hexByte_d8 (b : Byte.byte) :
  streq (SanityCheck.hexByte (Byte.to_N b)) (lit "d8") = Byte.eqb b Byte.xd8.
Proof. destruct b; reflexivity. Qed.

Lemma hexByte_00 : SanityCheck.hexByte 0 = lit "00".
Proof. reflexivity. Qed.

Lemma streq_pairs (x1 x2 y1 y2 : N) (rest a b : jsstring) :
  List.length a = 2 -> List.length b = 2 ->
  startsWith (x1 :: x2 :: y1 :: y2 :: rest) (a ++ b)
  = (streq [x1; x2] a && streq [y1; y2] b)%bool.
Proof.
  destruct a as [|a1 [|a2 [|]]]; try discriminate.
  destruct b as [|b1 [|b2 [|]]]; try discriminate.
  intros _ _. unfold startsWith. cbn.
  now rewrite !andb_true_r, !andb_assoc.
Qed.

Lemma startsWith_ffd8 (bytes : list Byte.byte) :
  startsWith (SanityCheck.hexHeader bytes) (lit "ffd8") = isJpegStart bytes
  /\ List.length (SanityCheck.hexHeader bytes) = 8.
Proof.
  unfold SanityCheck.hexHeader, SanityCheck.header.
  destruct bytes as [|a [|b [|c [|d rest]]]];
    cbn [map app repeat firstn flat_map isJpegStart];
    try (split; reflexivity).
  - split; [|reflexivity].
    change (lit "ffd8") with (lit "ff" ++ lit "d8").
    cbn [SanityCheck.hexByte app]. rewrite streq_pairs by reflexivity.
    fold (SanityCheck.hexByte (Byte.to_N a)). rewrite hexByte_ff.
    now rewrite andb_false_r.
  - split; [|reflexivity].
    change (lit "ffd8") with (lit "ff" ++ lit "d8").
    cbn [SanityCheck.hexByte app]. rewrite streq_pairs by reflexivity.
    fold (SanityCheck.hexByte (Byte.to_N a)).
    fold (SanityCheck.hexByte (Byte.to_N b)).
    now rewrite hexByte_ff, hexByte_d8.
  - split; [|reflexivity].
    change (lit "ffd8") with (lit "ff" ++ lit "d8").
    cbn [SanityCheck.hexByte app]. rewrite streq_pairs by reflexivity.
    fold (SanityCheck.hexByte (Byte.to_N a)).
    fold (SanityCheck.hexByte (Byte.to_N b)).
    now rewrite hexByte_ff, hexByte_d8.
  - split; [|reflexivity].
    change (lit "ffd8") with (lit "ff" ++ lit "d8").
    cbn [SanityCheck.hexByte app]. rewrite streq_pairs by reflexivity.
    fold (SanityCheck.hexByte (Byte.to_N a)).
    fold (SanityCheck.hexByte (Byte.to_N b)).
    now rewrite hexByte_ff, hexByte_d8.
Qed.

(** X5.  [validateRawBinary] calls a readable file a legitimate JPEG
    exactly when its first two bytes are FF D8: the third byte is not
    looked at, and a file shorter than two bytes, padded with zeros by
    the buffer, is reported as invalid.  The header it prints always has
    eight hexadecimal digits. *)
Theorem jpeg_verdict (fileName : jsstring) (bytes : list Byte.byte) :
  SanityCheck.validateRawBinary fileName (Some bytes)
  = [Log (lit "FILE: " ++ fileName);
     Log (lit "- Detected Hex Header: " ++ SanityCheck.hexHeader bytes);
     Log (lit "- File Size: " ++ SanityCheck.fileSizeMB bytes ++ lit " MB");
     if isJpegStart bytes
     then Log (lit "- [VALID] This is a legitimate JPEG binary.")
     else Error (lit "- [INVALID] Header " ++ SanityCheck.hexHeader bytes
                 ++ lit " does not match JPEG format.");
     Log (lit "---")]
  /\ List.length (SanityCheck.hexHeader bytes) = 8.
Proof.
  destruct (startsWith_ffd8 bytes) as [Hstart Hlen].
  split; [|exact Hlen].
  unfold SanityCheck.validateRawBinary. now rewrite Hstart.
Qed.

(* ===================================================================== *)
(** * The batch run                                                       *)
(* ===================================================================== *)

Section Batch.

Variable D : Type.
Variable service : jsstring -> Pipeline.reply D.
Variable saving : jsstring -> Pipeline.outcome D.
Variable scanPath : jsstring -> jsstring.

Abbreviation effect := (Pipeline.effect D).
Abbreviation main := (Pipeline.main service saving scanPath).
Abbreviation mainChecked := (Pipeline.mainChecked service saving scanPath).
Abbreviation process := (Pipeline.process service saving scanPath).
Abbreviation processChecked :=
  (Pipeline.processChecked service saving scanPath).
Abbreviation saves := (@Pipeline.saves D).
Abbreviation scansOf := Run.scansOf.
Abbreviation saved := (Run.saved service scanPath).
Abbreviation isWarning := (@Run.isWarning D).
Abbreviation isClose := (@Run.isClose D).

Lemma saves_app (a b : list effect) : saves (a ++ b) = saves a ++ saves b.
Proof. apply flat_map_app. Qed.

Lemma saves_prints (f : list line) : saves (map (@Pipeline.Print D) f) = [].
Proof. induction f as [|l f IH]; [reflexivity | exact IH]. Qed.

Lemma saves_mkdirs (l : list workingDir) :
  saves (map (@Pipeline.Mkdir D) l) = [].
Proof. induction l as [|d l IH]; [reflexivity | exact IH]. Qed.

Lemma saves_process (file : jsstring) : saves (process file) = saved file.
Proof.
  unfold Pipeline.process, Pipeline.performOCR, Pipeline.save, Run.saved.
  destruct (service (scanPath file)) as [e|[a|]]; try reflexivity.
  destruct (saving file); reflexivity.
Qed.

Lemma saves_processChecked (file : jsstring) :
  saves (processChecked file) = saved file.
Proof.
  unfold Pipeline.processChecked, Pipeline.performOCR, Pipeline.save,
    Run.saved.
  destruct (service (scanPath file)) as [e|[a|]]; try reflexivity.
  destruct (saving file); reflexivity.
Qed.

Lemma saves_flat_map (body : jsstring -> list effect) (files : list jsstring) :
  (forall f, saves (body f) = saved f) ->
  saves (flat_map body files) = flat_map saved files.
Proof.
  intros H. induction files as [|f files IH]; cbn [flat_map];
    [reflexivity|].
  now rewrite saves_app, H, IH.
Qed.

Lemma main_unfold (disk : Disk) :
  main disk
  = map (@Pipeline.Mkdir D) (fst (ensureDirectories disk))
    ++ match scansOf disk with
       | [] => [Pipeline.Print
                  (Log (lit "No scan files found in the input directory."))]
       | _ =>
           flat_map process (scansOf disk)
           ++ [Pipeline.Close;
               Pipeline.Print
                 (Log (lit "All tasks complete. Connection closed."))]
       end.
Proof. reflexivity. Qed.

Lemma mainChecked_unfold (disk : Disk) :
  mainChecked disk
  = map (@Pipeline.Mkdir D) (fst (ensureDirectories disk))
    ++ match scansOf disk with
       | [] => [Pipeline.Print
                  (Log (lit "No scan files found in the input directory."))]
       | _ =>
           flat_map processChecked (scansOf disk)
           ++ [Pipeline.Close;
               Pipeline.Print (Log (lit "Batch processing complete."))]
       end.
Proof. reflexivity. Qed.

Lemma saves_main (disk : Disk) :
  saves (main disk) = flat_map saved (scansOf disk)
  /\ saves (mainChecked disk) = flat_map saved (scansOf disk).
Proof.
  rewrite main_unfold, mainChecked_unfold, !saves_app, !saves_mkdirs.
  destruct (scansOf disk) as [|f files] eqn:Hfiles; [now split|].
  rewrite !saves_app, (saves_flat_map _ _ saves_process),
    (saves_flat_map _ _ saves_processChecked).
  cbn. now rewrite !app_nil_r.
Qed.


Lemma no_warning_app (a b : list effect) :
  existsb isWarning (a ++ b) = (existsb isWarning a || existsb isWarning b)%bool.
Proof. apply existsb_app. Qed.

Lemma no_warning_processChecked (file : jsstring) :
  existsb isWarning (processChecked file) = false.
Proof.
  unfold Pipeline.processChecked, Pipeline.performOCR, Pipeline.save.
  destruct (service (scanPath file)) as [e|[a|]]; try reflexivity.
  destruct (saving file); reflexivity.
Qed.

(** X7.  [performOCR] returns an annotation or throws, never nothing:
    an empty reply is turned into an error.  So the branch of the
    checked [main] that warns about a skipped file is dead: whatever the
    disk and the service, no run prints a warning, and every scan is
    either saved or reported as an error. *)
Theorem skip_branch_is_dead (disk : Disk) :
  existsb isWarning (mainChecked disk) = false
  /\ (forall imagePath,
        match Pipeline.performOCR service imagePath with
        | (_, inl None) => False
        | (printed, inl (Some a)) =>
            service imagePath = Pipeline.Replies (Some a) /\ printed = []
        | (printed, inr e) => List.length printed = 1
        end).
Proof.
  split.
  - rewrite mainChecked_unfold, no_warning_app.
    replace (existsb isWarning
               (map (@Pipeline.Mkdir D) (fst (ensureDirectories disk))))
      with false
      by (induction (fst (ensureDirectories disk)); [reflexivity | assumption]).
    destruct (scansOf disk) as [|f files]; [reflexivity|].
    rewrite no_warning_app. cbn [existsb Run.isWarning orb].
    rewrite orb_false_r.
    generalize (f :: files). intros l.
    induction l as [|g l IH]; [reflexivity|].
    cbn [flat_map]. now rewrite no_warning_app, no_warning_processChecked.
  - intros imagePath. unfold Pipeline.performOCR.
    destruct (service imagePath) as [e|[a|]]; cbn; auto.
Qed.

Lemma close_processes (body : jsstring -> list effect)
      (files : list jsstring) :
  (forall f, existsb isClose (body f) = false) ->
  existsb isClose (flat_map body files) = false.
Proof.
  intros H. induction files as [|f files IH]; [reflexivity|].
  cbn [flat_map]. now rewrite existsb_app, H, IH.
Qed.

Lemma close_process (file : jsstring) :
  existsb isClose (process file) = false
  /\ existsb isClose (processChecked file) = false.
Proof.
  unfold Pipeline.process, Pipeline.processChecked, Pipeline.performOCR,
    Pipeline.save.
  destruct (service (scanPath file)) as [e|[a|]]; try (split; reflexivity).
  destruct (saving file); split; reflexivity.
Qed.

Lemma close_mkdirs (l : list workingDir) :
  existsb isClose (map (@Pipeline.Mkdir D) l) = false.
Proof. induction l as [|d l IH]; [reflexivity | exact IH]. Qed.


Lemma written_other (l : list (jsstring * option D))
      (out : directory (option D)) (name : jsstring) :
  (forall g d, In (g, d) l -> outputName g <> name) ->
  fold_left (Pipeline.written saving) l out name = out name.
Proof.
  revert out. induction l as [|[g d] l IH]; intros out H; cbn [fold_left];
    [reflexivity|].
  rewrite IH by (intros g' d' Hin; apply (H g' d'); now right).
  assert (Hg : streq name (outputName g) = false).
  { apply streq_false_iff. intros ->.
    exact (H g d (or_introl eq_refl) eq_refl). }
  unfold Pipeline.written, saveOcrResult; cbn [fst snd].
  destruct (saving g) as [|error [content|]]; now rewrite ?Hg.
Qed.

Lemma saved_In (f g : jsstring) (d : option D) :
  In (g, d) (saved f) ->
  exists a, d = Some a /\ g = f
            /\ service (scanPath f) = Pipeline.Replies (Some a).
Proof.
  unfold Run.saved. destruct (service (scanPath f)) as [e|[a|]]; cbn;
    try tauto.
  intros [[= <- <-]|[]]. now exists a.
Qed.

Lemma caught_is_printed (disk : Disk) (before after : list jsstring)
      (f : jsstring) (a : D) (error : thrown) (left : option (option D)) :
  scansOf disk = before ++ f :: after ->
  service (scanPath f) = Pipeline.Replies (Some a) ->
  saving f = Pipeline.Throws error left ->
  In (Pipeline.Print (Pipeline.caught f error)) (main disk)
  /\ In (Pipeline.Print (Pipeline.caught f error)) (mainChecked disk).
Proof.
  intros Hfiles Hreply Hsaving.
  assert (Hf : In f (scansOf disk))
    by (rewrite Hfiles; apply in_elt).
  rewrite main_unfold, mainChecked_unfold.
  destruct (scansOf disk) as [|g files]; [contradiction|].
  split; apply in_or_app; right; apply in_or_app; left;
    apply in_flat_map; exists f; (split; [exact Hf|]);
    unfold Pipeline.process, Pipeline.processChecked, Pipeline.performOCR,
      Pipeline.save;
    rewrite Hreply, Hsaving; cbn; tauto.
Qed.


End Batch.


(* ===================================================================== *)
(** * Inputs the normalisers accept                                       *)
(* ===================================================================== *)

Lemma dataOf_returns (root : value) (j : json) :
  exists d, HierarchyFirst.dataOf root j = Ok d.
Proof.
  unfold HierarchyFirst.dataOf.
  destruct root as [[|b|x|s|l|f]|]; cbn [truthy typeofObject getField bind];
    try (eexists; reflexivity).
  - destruct b; eexists; reflexivity.
  - destruct (negb _); eexists; reflexivity.
  - destruct (negb _); eexists; reflexivity.
Qed.

(** X10.  The three normalisers throw on one input only, the JSON value
    [null].  No other malformed input is rejected: the hierarchy-first
    [loadVisionFile] hands back a falsy number, string or boolean as it
    is, turns a truthy one into [false], and returns an array
    unchanged. *)
Theorem normalisers_throw_on_null_only (j : json) :
  (HierarchyFirst.loadVisionFile j = TypeError <-> j = JNull)
  /\ (TextFirst.loadVisionFile j = TypeError <-> j = JNull)
  /\ (Validate.selectAnnotation j = TypeError <-> j = JNull)
  /\ match j with
     | JBool _ | JNum _ | JStr _ =>
         HierarchyFirst.loadVisionFile j
         = Ok (if truthy j then JBool false else j)
     | JArr _ => HierarchyFirst.loadVisionFile j = Ok j
     | _ => True
     end.
Proof.
  split; [|split; [|split]].
  - unfold HierarchyFirst.loadVisionFile, HierarchyFirst.rootOf.
    destruct j as [|b|x|s|l|f]; cbn [getField bind];
      try (destruct (dataOf_returns (Some (JBool b)) (JBool b)) as [d ->]);
      try (destruct (dataOf_returns (Some (JNum x)) (JNum x)) as [d ->]);
      try (destruct (dataOf_returns (Some (JStr s)) (JStr s)) as [d ->]);
      try (destruct (dataOf_returns (Some (JArr l)) (JArr l)) as [d ->]);
      try (split; congruence).
    match goal with
    | |- context [HierarchyFirst.dataOf ?r ?v] =>
        destruct (dataOf_returns r v) as [d ->]
    end.
    split; congruence.
  - unfold TextFirst.loadVisionFile.
    destruct j; cbn [getField bind]; split; congruence.
  - unfold Validate.selectAnnotation.
    destruct j; cbn [getField bind]; split; congruence.
  - destruct j as [|b|x|s|l|f]; try exact I.
    + destruct b; reflexivity.
    + unfold HierarchyFirst.loadVisionFile, HierarchyFirst.rootOf,
        HierarchyFirst.dataOf; cbn [getField bind typeofObject].
      destruct (truthy (JNum x)); reflexivity.
    + unfold HierarchyFirst.loadVisionFile, HierarchyFirst.rootOf,
        HierarchyFirst.dataOf; cbn [getField bind typeofObject].
      destruct (truthy (JStr s)); reflexivity.
    + reflexivity.
Qed.

(* ===================================================================== *)
(** * Blocks stay apart                                                   *)
(* ===================================================================== *)

Lemma separated_app (bs1 bs2 : list Block) (parts : list jsstring) :
  separated (bs1 ++ bs2) parts = separated bs2 (separated bs1 parts).
Proof. apply fold_left_app. Qed.

Lemma separated_extends (bs : list Block) (parts : list jsstring) :
  exists more, separated bs parts = parts ++ more.
Proof.
  revert parts. induction bs as [|b bs IH]; intros parts.
  - exists []. cbn. now rewrite app_nil_r.
  - cbn [separated fold_left].
    destruct (IH (HierarchyFirst.separate (parts ++ blockPieces b)))
      as [more Hmore].
    unfold separated in Hmore. rewrite Hmore.
    unfold HierarchyFirst.separate.
    destruct (negb _); eexists; rewrite <- !app_assoc; reflexivity.
Qed.

Lemma separate_closed (parts : list jsstring) :
  HierarchyFirst.lastEndsWithLF (HierarchyFirst.separate parts) = true.
Proof.
  unfold HierarchyFirst.separate.
  destruct (HierarchyFirst.lastEndsWithLF parts) eqn:H; cbn [negb];
    [exact H|].
  unfold HierarchyFirst.lastEndsWithLF. now rewrite rev_app_distr.
Qed.

Lemma separated_closed (bs : list Block) (parts : list jsstring) :
  bs <> [] -> HierarchyFirst.lastEndsWithLF (separated bs parts) = true.
Proof.
  destruct (rev bs) as [|b r] eqn:Hrev.
  - apply (f_equal (@rev Block)) in Hrev. rewrite rev_involutive in Hrev.
    now subst.
  - apply (f_equal (@rev Block)) in Hrev. rewrite rev_involutive in Hrev.
    cbn in Hrev. subst bs. intros _.
    rewrite separated_app. cbn. apply separate_closed.
Qed.

Lemma closed_join (parts : list jsstring) :
  HierarchyFirst.lastEndsWithLF parts = true ->
  endsWithLF (join parts) = true.
Proof.
  intros H. rewrite <- lastEndsWithLF_join; [exact H|].
  unfold HierarchyFirst.lastEndsWithLF in H.
  destruct (rev parts) as [|p r] eqn:Hrev; [discriminate|].
  apply (f_equal (@rev jsstring)) in Hrev. rewrite rev_involutive in Hrev.
  cbn in Hrev. subst parts. rewrite last_last.
  intros ->. discriminate.
Qed.



(* ===================================================================== *)
(** * When the audit throws                                               *)
(* ===================================================================== *)

(** X12.  [auditJsonFile] reads [blocks], [paragraphs] and [words]
    without a default, unlike [extractText]: it throws a [TypeError],
    before printing anything, exactly on the annotations that have a
    non-empty [pages] list and lack one of these arrays somewhere; on
    every other annotation it prints its lines. *)
Theorem audit_throws_iff (fileName : jsstring) (data : VisionAnnotation) :
  Validate.auditJsonFile fileName data = TypeError
  <-> noPages data = false /\ complete data = false.
Proof.
  destruct (noPages data) eqn:Hno.
  - unfold Validate.auditJsonFile. rewrite Hno.
    split; [discriminate | intros [H _]; discriminate].
  - destruct (noPages_false _ Hno) as (p & ps & Hps).
    destruct (complete data) eqn:Hc.
    + rewrite (auditJsonFile_complete _ _ Hps Hc).
      split; [discriminate | intros [_ H]; discriminate].
    + unfold Validate.auditJsonFile.
      rewrite Hno, (traverse_decided _ Hps), Hc. cbn. tauto.
Qed.

(** X13.  Whenever the traversal of the audit ends, the number of
    flagged words is at most the number of words, and a word count of
    zero comes with zero flagged words and a mean that is NaN. *)
Theorem tally_is_consistent (data : VisionAnnotation) (t : Validate.Tally)
  (H : Validate.traverse data = Ok t) :
  Validate.flaggedWordCount t <= Validate.wordCount t
  /\ (Validate.wordCount t = 0 ->
      Validate.flaggedWordCount t = 0
      /\ PrimFloat.is_nan (Validate.meanConfidence t) = true).
Proof.
  unfold Validate.traverse in H.
  destruct (pages data) as [ps|] eqn:Hps; [|discriminate].
  assert (Ht : Validate.traverse data = Ok t)
    by (unfold Validate.traverse; now rewrite Hps).
  rewrite (traverse_decided _ Hps) in Ht.
  destruct (complete data); [|discriminate].
  injection Ht as <-. cbn. split.
  - unfold flagged. apply filter_length_le.
  - intros Hzero. apply length_zero_iff_nil in Hzero.
    rewrite Hzero. split; reflexivity.
Qed.

Lemma tally_is_consistent_witness :
  Validate.traverse threeWords
  = Ok {| Validate.wordCount := 3;
          Validate.cumulativeConfidence := 2.4%float;
          Validate.flaggedWordCount := 1 |}
  /\ 1 <= 3
  /\ (3 = 0 -> 1 = 0 /\ PrimFloat.is_nan (2.4 / ofNat 3)%float = true).
Proof.
  split; [reflexivity|].
  exact (@tally_is_consistent threeWords _ eq_refl).
Defined.

(* ===================================================================== *)
(** * Reading back what [toJson] writes                                   *)
(* ===================================================================== *)

Lemma each_map {A} (cast : json -> option A) (enc : A -> json) (l : list A) :
  (forall a, cast (enc a) = Some a) -> each cast (map enc l) = Some l.
Proof.
  intros H. induction l as [|a l IH]; cbn [map each]; [reflexivity|].
  now rewrite H, IH.
Qed.

Lemma lookup_hit (k : jsstring) (v : json) (rest : list (jsstring * json)) :
  lookup k ((k, v) :: rest) = Some v.
Proof. cbn [lookup]. now rewrite streq_refl. Qed.

Lemma lookup_miss (k k' : jsstring) (v : json)
      (rest : list (jsstring * json)) :
  streq k k' = false -> lookup k ((k', v) :: rest) = lookup k rest.
Proof. intros H. cbn [lookup]. now rewrite H. Qed.

Lemma optional_enc {A} (cast : json -> option A) (j : json) (a : A) :
  cast j = Some a -> j <> JNull -> optional cast (Some j) = Some (Some a).
Proof.
  intros H Hj. destruct j; cbn [optional]; try congruence;
    now rewrite H.
Qed.

Lemma optional_array {A} (cast : json -> option A) (enc : A -> json)
      (l : list A) :
  (forall a, cast (enc a) = Some a) ->
  optional (castArray cast) (Some (array enc l)) = Some (Some l).
Proof.
  intros H. unfold array. cbn [optional castArray].
  now rewrite (each_map _ _ _ H).
Qed.

Lemma optional_string (t : jsstring) :
  optional castString (Some (JStr t)) = Some (Some t).
Proof. reflexivity. Qed.

Lemma optional_number (x : float) :
  optional castNumber (Some (JNum x)) = Some (Some x).
Proof. reflexivity. Qed.

Lemma optional_absent {A} (cast : json -> option A) :
  optional cast None = Some None.
Proof. reflexivity. Qed.

Ltac look :=
  unfold field; cbn [app];
  repeat (rewrite lookup_hit || rewrite lookup_miss by reflexivity);
  cbn [lookup];
  rewrite ?optional_string, ?optional_number, ?optional_absent.

Lemma castBreak_toJson (b : DetectedBreak) :
  castBreak (breakToJson b) = Some b.
Proof. destruct b as [[t|]]; reflexivity. Qed.

Lemma castProperty_toJson (p : Property) :
  castProperty (propertyToJson p) = Some p.
Proof.
  destruct p as [[b|]]; [|reflexivity].
  unfold castProperty, propertyToJson, castObject; cbn [detectedBreak]; look.
  now rewrite (optional_enc castBreak (castBreak_toJson b)).
Qed.

Lemma castSymbol_toJson (s : Symbol) : castSymbol (symbolToJson s) = Some s.
Proof.
  destruct s as [[t|] [p|]];
    unfold castSymbol, symbolToJson, castObject;
    cbn [symbol_text property]; look; try reflexivity;
    now rewrite (optional_enc castProperty (castProperty_toJson p)).
Qed.

Lemma castWord_toJson (w : Word) : castWord (wordToJson w) = Some w.
Proof.
  destruct w as [[l|] [c|]];
    unfold castWord, wordToJson, castObject;
    cbn [symbols confidence]; look; try reflexivity;
    rewrite (optional_array castSymbol symbolToJson l castSymbol_toJson);
    reflexivity.
Qed.

Lemma castParagraph_toJson (p : Paragraph) :
  castParagraph (paragraphToJson p) = Some p.
Proof.
  destruct p as [[l|]]; [|reflexivity].
  unfold castParagraph, paragraphToJson, castObject; cbn [words]; look.
  now rewrite (optional_array castWord wordToJson l castWord_toJson).
Qed.

Lemma castBlock_toJson (b : Block) : castBlock (blockToJson b) = Some b.
Proof.
  destruct b as [[l|]]; [|reflexivity].
  unfold castBlock, blockToJson, castObject; cbn [paragraphs]; look.
  now rewrite (optional_array castParagraph paragraphToJson l
                 castParagraph_toJson).
Qed.

Lemma castPage_toJson (p : Page) : castPage (pageToJson p) = Some p.
Proof.
  destruct p as [[l|]]; [|reflexivity].
  unfold castPage, pageToJson, castObject; cbn [blocks]; look.
  now rewrite (optional_array castBlock blockToJson l castBlock_toJson).
Qed.

Lemma castAnnotation_toJson (C : VisionAnnotation) :
  castAnnotation (toJson C) = Some C.
Proof.
  destruct C as [[l|] [t|]];
    unfold castAnnotation, toJson, castObject;
    cbn [pages text]; look; try reflexivity;
    rewrite (optional_array castPage pageToJson l castPage_toJson);
    reflexivity.
Qed.

Lemma castAnnotation_responses (c : json) :
  castAnnotation (underResponses c) = Some {| pages := None; text := None |}.
Proof. reflexivity. Qed.

(* ===================================================================== *)
(** * The command lines                                                   *)
(* ===================================================================== *)

Section CommandLine.

Variable resolve : jsstring -> jsstring.
Variable disk : jsstring -> Cli.file.

Lemma run_done (c : N) (p : jsstring) (j d : json) (C : VisionAnnotation)
      (usageLines : list jsstring) (load : json -> result json)
      (extract : VisionAnnotation -> result jsstring)
      (write : jsstring -> jsstring) (t : jsstring) :
  disk (resolve (c :: p)) = Cli.Holds j ->
  load j = Ok d -> castAnnotation d = Some C -> extract C = Ok t ->
  Cli.run (Some (c :: p)) resolve disk usageLines load extract write
  = Cli.Done (write t).
Proof.
  intros Hfile Hload Hcast Hextract. unfold Cli.run.
  now rewrite Hfile, Hload, Hcast, Hextract.
Qed.

Lemma HierarchyFirst_shapes (C : VisionAnnotation) (j : json) :
  In j [toJson C; underFullTextAnnotation (toJson C);
        underResponses (toJson C);
        underResponses (underFullTextAnnotation (toJson C))] ->
  HierarchyFirst.loadVisionFile j = Ok (toJson C).
Proof.
  destruct (toJson_is_object C) as (fields & -> & Hr & Hw).
  intros [<-|[<-|[<-|[<-|[]]]]].
  - now apply HierarchyFirst_root.
  - apply HierarchyFirst_wrapped.
  - now apply HierarchyFirst_responses.
  - apply HierarchyFirst_responses_wrapped.
Qed.

(** X14.  The hierarchy-first command prints the same text for the four
    raw shapes of a document: from the file on the disk through
    [loadVisionFile], the reading at the interface type, [extractText]
    and the writing, the standard output is the text of the document
    followed by a line feed, or nothing when the text is empty, and the
    run ends normally. *)
Theorem cli_reads_every_shape (c : N) (p : jsstring)
  (C : VisionAnnotation) (j : json)
  (Hshape : In j [toJson C; underFullTextAnnotation (toJson C);
                  underResponses (toJson C);
                  underResponses (underFullTextAnnotation (toJson C))])
  (Hfile : disk (resolve (c :: p)) = Cli.Holds j) :
  exists text,
    HierarchyFirst.extractText C = Ok text
    /\ Cli.mainHierarchyFirst (Some (c :: p)) resolve disk
       = Cli.Done (match text with [] => [] | _ => text ++ LF end).
Proof.
  destruct (HierarchyFirst.extractText C) as [text|] eqn:Hx;
    [|rewrite HierarchyFirst_extractText_ok in Hx; discriminate].
  exists text. split; [reflexivity|].
  unfold Cli.mainHierarchyFirst.
  erewrite run_done;
    [| exact Hfile | exact (@HierarchyFirst_shapes C j Hshape)
     | apply castAnnotation_toJson | exact Hx].
  unfold Cli.writeHierarchyFirst. destruct text; [reflexivity|].
  reflexivity.
Qed.

(** X15.  The text-first command and the audit read a document at the
    root and under [fullTextAnnotation] alike, as [extractText] and
    [auditJsonFile] do on the document itself.  In a raw API response,
    which the hierarchy-first command reads, they see no document: the
    text-first command ends normally having written nothing, and the
    audit prints that the file has no pages. *)
Theorem wrapper_support_differs (c : N) (p fileName : jsstring)
  (C : VisionAnnotation) (j : json)
  (Hfile : disk (resolve (c :: p)) = Cli.Holds j) :
  (In j [toJson C; underFullTextAnnotation (toJson C)] ->
     Cli.mainTextFirst (Some (c :: p)) resolve disk
     = match TextFirst.extractText C with
       | Ok text => Cli.Done (Cli.writeTextFirst text)
       | TypeError => Cli.Uncaught
       end
     /\ Cli.auditFile fileName (Cli.Holds j)
        = match Validate.auditJsonFile fileName C with
          | Ok lines => (lines, Cli.Finished)
          | TypeError => ([], Cli.Crashed)
          end)
  /\ (In j [underResponses (toJson C);
            underResponses (underFullTextAnnotation (toJson C))] ->
      Cli.mainTextFirst (Some (c :: p)) resolve disk = Cli.Done []
      /\ Cli.auditFile fileName (Cli.Holds j)
         = ([lit "[!] CRITICAL: " ++ fileName
             ++ lit " contains no structural 'pages' data."],
            Cli.Finished)).
Proof.
  destruct (two_shape_normalisers C) as (Ht1 & Ht2 & Hv1 & Hv2).
  split.
  - intros Hj.
    assert (Hload : TextFirst.loadVisionFile j = Ok (toJson C)
                    /\ Validate.selectAnnotation j = Ok (toJson C))
      by (destruct Hj as [<-|[<-|[]]]; now split).
    destruct Hload as [Ht Hv]. split.
    + unfold Cli.mainTextFirst, Cli.run.
      now rewrite Hfile, Ht, castAnnotation_toJson.
    + unfold Cli.auditFile. now rewrite Hv, castAnnotation_toJson.
  - intros Hj. split.
    + unfold Cli.mainTextFirst, Cli.run. rewrite Hfile.
      destruct Hj as [<-|[<-|[]]]; reflexivity.
    + destruct Hj as [<-|[<-|[]]]; reflexivity.
Qed.

Lemma json_is_null (j : json) : j = JNull \/ j <> JNull.
Proof. destruct j; [now left|right; discriminate..]. Qed.

(** A value that is no object: a number, a string, a boolean or an
    array. *)
Lemma plain_value_is_empty (j : json) :
  j <> JNull -> (forall fields, j <> JObj fields) ->
  (exists d, HierarchyFirst.loadVisionFile j = Ok d
             /\ castAnnotation d = Some {| pages := None; text := None |})
  /\ TextFirst.loadVisionFile j = Ok j
  /\ Validate.selectAnnotation j = Ok j
  /\ castAnnotation j = Some {| pages := None; text := None |}.
Proof.
  intros Hnull Hobj.
  destruct j as [|b|x|s|l|fields]; [now elim Hnull|..|now elim (Hobj fields)].
  - split; [destruct b; eexists; split; reflexivity|]. now split.
  - split; [|now split].
    unfold HierarchyFirst.loadVisionFile, HierarchyFirst.rootOf,
      HierarchyFirst.dataOf; cbn [getField bind typeofObject].
    destruct (truthy (JNum x)); eexists; split; reflexivity.
  - split; [|now split].
    unfold HierarchyFirst.loadVisionFile, HierarchyFirst.rootOf,
      HierarchyFirst.dataOf; cbn [getField bind typeofObject].
    destruct (truthy (JStr s)); eexists; split; reflexivity.
  - split; [eexists; split; reflexivity|]. now split.
Qed.

(** X16.  Whenever either command ends normally, what it has written to
    the standard output is empty or ends in a line feed; the text-first
    command adds the line feed only to a text that does not end in one.
    On a file that holds a number, a string, a boolean or an array both
    commands end normally and write nothing; on a file that holds
    [null] both end in a [TypeError] nothing catches. *)
Theorem stdout_is_whole_lines (arg : option jsstring) :
  (forall out,
     Cli.mainHierarchyFirst arg resolve disk = Cli.Done out
     \/ Cli.mainTextFirst arg resolve disk = Cli.Done out ->
     out = [] \/ endsWithLF out = true)
  /\ (forall text,
        Cli.writeTextFirst text = text
        \/ (endsWithLF text = false /\ Cli.writeTextFirst text = text ++ LF))
  /\ (forall c p j,
        arg = Some (c :: p) -> disk (resolve (c :: p)) = Cli.Holds j ->
        (forall fields, j <> JObj fields) ->
        Cli.mainHierarchyFirst arg resolve disk
        = match j with JNull => Cli.Uncaught | _ => Cli.Done [] end
        /\ Cli.mainTextFirst arg resolve disk
           = match j with JNull => Cli.Uncaught | _ => Cli.Done [] end).
Proof.
  assert (Hh : forall text, Cli.writeHierarchyFirst text = []
                            \/ endsWithLF (Cli.writeHierarchyFirst text) = true).
  { intros [|c t]; [now left|right].
    unfold Cli.writeHierarchyFirst. cbn [List.length Nat.ltb Nat.leb].
    now rewrite endsWithLF_app. }
  assert (Ht : forall text, Cli.writeTextFirst text = []
                            \/ endsWithLF (Cli.writeTextFirst text) = true).
  { intros [|c t]; [now left|right].
    unfold Cli.writeTextFirst. cbn [List.length Nat.ltb Nat.leb andb].
    destruct (endsWithLF (c :: t)) eqn:He; cbn [negb].
    - now rewrite app_nil_r.
    - now rewrite endsWithLF_app. }
  split; [|split].
  - intros out [Hdone|Hdone].
    + unfold Cli.mainHierarchyFirst, Cli.run in Hdone.
      destruct arg as [[|c p]|]; try discriminate.
      destruct (disk (resolve (c :: p))); try discriminate.
      destruct (HierarchyFirst.loadVisionFile j); try discriminate.
      destruct (castAnnotation a); try discriminate.
      destruct (HierarchyFirst.extractText v); try discriminate.
      injection Hdone as <-. apply Hh.
    + unfold Cli.mainTextFirst, Cli.run in Hdone.
      destruct arg as [[|c p]|]; try discriminate.
      destruct (disk (resolve (c :: p))); try discriminate.
      destruct (TextFirst.loadVisionFile j); try discriminate.
      destruct (castAnnotation a); try discriminate.
      destruct (TextFirst.extractText v); try discriminate.
      injection Hdone as <-. apply Ht.
  - intros text. unfold Cli.writeTextFirst.
    destruct (Nat.ltb 0 (List.length text)); cbn [andb];
      [|left; apply app_nil_r].
    destruct (endsWithLF text); cbn [negb];
      [left; apply app_nil_r | right; now split].
  - intros c p j -> Hfile Hobj.
    unfold Cli.mainHierarchyFirst, Cli.mainTextFirst, Cli.run.
    rewrite Hfile.
    destruct (json_is_null j) as [->|Hnull]; [now split|].
    destruct (plain_value_is_empty Hnull Hobj)
      as ((d & -> & ->) & -> & _ & ->).
    destruct j; try (now elim Hnull); now split.
Qed.

End CommandLine.

Lemma cli_reads_every_shape_witness :
  In (underResponses (toJson catDog))
     [toJson catDog; underFullTextAnnotation (toJson catDog);
      underResponses (toJson catDog);
      underResponses (underFullTextAnnotation (toJson catDog))]
  /\ exists text,
      HierarchyFirst.extractText catDog = Ok text
      /\ Cli.mainHierarchyFirst (Some (lit "05.json")) (fun p => p)
           (fun _ => Cli.Holds (underResponses (toJson catDog)))
         = Cli.Done (match text with [] => [] | _ => text ++ LF end).
Proof.
  split; [cbn; tauto|].
  refine (@cli_reads_every_shape (fun p => p)
            (fun _ => Cli.Holds (underResponses (toJson catDog)))
            48%N (lit "5.json") catDog _ _ eq_refl).
  cbn; tauto.
Defined.

Lemma wrapper_support_differs_witness :
  Cli.mainTextFirst (Some (lit "05.json")) (fun p => p)
    (fun _ => Cli.Holds (underResponses (toJson catDog)))
  = Cli.Done []
  /\ Cli.auditFile (lit "05.json")
       (Cli.Holds (underResponses (toJson catDog)))
     = ([lit "[!] CRITICAL: 05.json contains no structural 'pages' data."],
        Cli.Finished).
Proof.
  refine (proj2 (@wrapper_support_differs (fun p => p)
                   (fun _ => Cli.Holds (underResponses (toJson catDog)))
                   48%N (lit "5.json") (lit "05.json") catDog _ eq_refl) _).
  cbn; tauto.
Defined.

(* ===================================================================== *)
(** * The audit of a directory                                            *)
(* ===================================================================== *)

Lemma auditFile_crashed (fileName : jsstring) (f : Cli.file) :
  snd (Cli.auditFile fileName f) = Cli.Crashed ->
  fst (Cli.auditFile fileName f) = [].
Proof.
  unfold Cli.auditFile. destruct f as [| |j]; try reflexivity.
  destruct (Validate.selectAnnotation j) as [d|]; [|reflexivity].
  destruct (castAnnotation d) as [C|]; [|reflexivity].
  destruct (Validate.auditJsonFile fileName C); [|reflexivity].
  cbn. discriminate.
Qed.

Lemma auditAll_stops (before after : list (jsstring * Cli.file))
      (fileName : jsstring) (f : Cli.file) :
  (forall e, In e before ->
             snd (Cli.auditFile (fst e) (snd e)) = Cli.Finished) ->
  snd (Cli.auditFile fileName f) = Cli.Crashed ->
  Cli.auditAll (before ++ (fileName, f) :: after)
  = (flat_map (fun e => fst (Cli.auditFile (fst e) (snd e))) before,
     Cli.Crashed).
Proof.
  intros Hbefore Hcrash.
  induction before as [|[n g] before IH];
    cbn [app Cli.auditAll flat_map fst snd].
  - pose proof (auditFile_crashed _ _ Hcrash) as Hnone.
    destruct (Cli.auditFile fileName f) as [lines s]; cbn in *.
    now subst lines s.
  - pose proof (Hbefore (n, g) (or_introl eq_refl)) as Hn. cbn in Hn.
    rewrite IH by (intros e He; apply Hbefore; now right).
    destruct (Cli.auditFile n g) as [lines s]; cbn in *. now subst s.
Qed.

(** X17.  The audit of the output directory has no handler around a
    file: the first JSON file on which the audit throws -- a file that
    cannot be read, is not JSON, holds [null], or holds a document on
    which [auditJsonFile] throws -- ends the run.  The lines of the
    files before it have been printed after the count of all JSON
    files, the failing file has printed nothing, and no later file is
    audited.  A file that holds a number, a string, a boolean or an
    array is no such file: the audit prints that it has no pages and
    goes on. *)
Theorem audit_stops_at_first_crash
  (entries before after : list (jsstring * Cli.file))
  (fileName : jsstring) (f : Cli.file)
  (Hfiles : filter (fun e => Cli.isJson (fst e)) entries
            = before ++ (fileName, f) :: after)
  (Hbefore : forall e, In e before ->
               snd (Cli.auditFile (fst e) (snd e)) = Cli.Finished)
  (Hcrash : snd (Cli.auditFile fileName f) = Cli.Crashed) :
  Cli.mainValidate (Some entries)
  = (Log (lit "Auditing "
          ++ digits (N.of_nat (List.length before + S (List.length after)))
          ++ lit " files..." ++ LF)
     :: map Log
          (flat_map (fun e => fst (Cli.auditFile (fst e) (snd e))) before),
     Cli.Crashed)
  /\ fst (Cli.auditFile fileName f) = []
  /\ (forall name j,
        j <> JNull -> (forall fields, j <> JObj fields) ->
        Cli.auditFile name (Cli.Holds j)
        = ([lit "[!] CRITICAL: " ++ name
            ++ lit " contains no structural 'pages' data."],
           Cli.Finished)).
Proof.
  split; [|split; [now apply auditFile_crashed|]].
  - unfold Cli.mainValidate. rewrite Hfiles.
    rewrite (auditAll_stops before after fileName f Hbefore Hcrash).
    rewrite length_app. cbn [List.length].
    destruct before; reflexivity.
  - intros name j Hnull Hobj. unfold Cli.auditFile.
    destruct (plain_value_is_empty Hnull Hobj) as (_ & _ & -> & ->).
    reflexivity.
Qed.

Lemma audit_stops_at_first_crash_witness :
  Cli.mainValidate (Some Run.sampleOutput)
  = ([Log (lit "Auditing 3 files..." ++ LF);
      Log (lit "FILE AUDIT: 05.json");
      Log (lit "- Avg Confidence: 0.8000");
      Log (lit "- Flagged Words: 1 (Under 0.80)");
      Log (lit "- Layout Blocks: 1");
      Log (lit "---")],
     Cli.Crashed)
  /\ fst (Cli.auditFile (lit "06.json") Cli.Garbled) = []
  /\ (forall name j,
        j <> JNull -> (forall fields, j <> JObj fields) ->
        Cli.auditFile name (Cli.Holds j)
        = ([lit "[!] CRITICAL: " ++ name
            ++ lit " contains no structural 'pages' data."],
           Cli.Finished)).
Proof.
  refine (@audit_stops_at_first_crash Run.sampleOutput
            [(lit "05.json", Cli.Holds (toJson threeWords))]
            [(lit "07.json", Cli.Holds (toJson threeWords))]
            (lit "06.json") Cli.Garbled eq_refl _ eq_refl).
  intros e [<-|[]]. reflexivity.
Defined.
